(** * Grade aggregation and ranking engine of the grade book (src/App.tsx)

    A shallow embedding of the computations of the [App] component: the
    sequence, term and annual aggregators, the statistics calculator and the
    report compiler, with the properties the specification states about
    them.

    State.  The handlers read the component state ([students], [subjects],
    [marks], [selectedSequence], ...) and write their results with the state
    setters; each is modelled as a function from [AppState] to [AppState].

    Numbers.  A JavaScript [number] is modelled by [number]: a rational, or
    one of the IEEE special values [Infinity], [-Infinity], [NaN] that the
    code can produce by dividing by zero.  Arithmetic on rationals is exact:
    the rounding of binary floating point and the sign of zero are not
    modelled.  The numbers stored in a snapshot (subject totals, mark values)
    are rationals; a stored mark may also be the empty string, which
    [handleMarkChange] writes when a cell is cleared.

    Objects.  The report compiler indexes a plain object with a string taken
    from the data, so its model follows the property lookup of JavaScript,
    prototype included. *)

From Stdlib Require Import QArith Lqa List Sorted Permutation String.
From stdpp Require Import gmap strings list.

Open Scope Q_scope.

(** ** JavaScript numbers *)

Inductive number : Type :=
  | Fin (q : Q)
  | PInf
  | NInf
  | NaN.

Definition Qltb (x y : Q) : bool := negb (Qle_bool y x).

Definition js_neg (a : number) : number :=
  match a with
  | Fin x => Fin (- x)
  | PInf => NInf
  | NInf => PInf
  | NaN => NaN
  end.

(** [a + b] *)
Definition js_add (a b : number) : number :=
  match a, b with
  | NaN, _ | _, NaN => NaN
  | Fin x, Fin y => Fin (x + y)
  | PInf, NInf | NInf, PInf => NaN
  | PInf, _ | _, PInf => PInf
  | NInf, _ | _, NInf => NInf
  end.

(** [a - b] *)
Definition js_sub (a b : number) : number := js_add a (js_neg b).

(** The sign of a finite value decides the product with an infinity. *)
Definition inf_times (positive : bool) (y : Q) : number :=
  if Qeq_bool y 0 then NaN
  else if Bool.eqb positive (Qltb 0 y) then PInf else NInf.

(** [a * b] *)
Definition js_mul (a b : number) : number :=
  match a, b with
  | NaN, _ | _, NaN => NaN
  | Fin x, Fin y => Fin (x * y)
  | PInf, Fin y | Fin y, PInf => inf_times true y
  | NInf, Fin y | Fin y, NInf => inf_times false y
  | PInf, PInf | NInf, NInf => PInf
  | PInf, NInf | NInf, PInf => NaN
  end.

(** [a / b]; a zero divisor is the positive zero. *)
Definition js_div (a b : number) : number :=
  match a, b with
  | NaN, _ | _, NaN => NaN
  | Fin x, Fin y =>
      if Qeq_bool y 0 then
        if Qeq_bool x 0 then NaN else if Qltb 0 x then PInf else NInf
      else Fin (x / y)
  | Fin _, (PInf | NInf) => Fin 0
  | (PInf | NInf), (PInf | NInf) => NaN
  | PInf, Fin y => if Qltb y 0 then NInf else PInf
  | NInf, Fin y => if Qltb y 0 then PInf else NInf
  end.

(** [a > b] *)
Definition js_gt (a b : number) : bool :=
  match a, b with
  | NaN, _ | _, NaN => false
  | Fin x, Fin y => Qltb y x
  | PInf, (Fin _ | NInf) => true
  | Fin _, NInf => true
  | _, _ => false
  end.

(** [a >= b] *)
Definition js_ge (a b : number) : bool :=
  match a, b with
  | NaN, _ | _, NaN => false
  | Fin x, Fin y => Qle_bool y x
  | PInf, _ => true
  | _, NInf => true
  | _, _ => false
  end.

(** [a || 0] on a number: [NaN] is falsy; so is zero, which is replaced by
    the zero on the right, the same number. *)
Definition js_or0 (a : number) : number :=
  match a with
  | NaN => Fin 0
  | _ => a
  end.

(** The number of elements of an array, as a [number]. *)
Definition js_length {A} (l : list A) : number :=
  Fin (inject_Z (Z.of_nat (length l))).

(** Equality of numbers as values ([==] on the rationals). *)
Definition num_eq (a b : number) : Prop :=
  match a, b with
  | Fin x, Fin y => x == y
  | PInf, PInf | NInf, NInf | NaN, NaN => True
  | _, _ => False
  end.

Definition num_eqb (a b : number) : bool :=
  match a, b with
  | Fin x, Fin y => Qeq_bool x y
  | PInf, PInf | NInf, NInf | NaN, NaN => true
  | _, _ => false
  end.

Definition is_NaN (a : number) : bool :=
  match a with NaN => true | _ => false end.

(** ** Domain model (src/types.ts) *)

Module Student.
Record t : Type := { id : string; name : string }.
End Student.

Module Subject.
Record t : Type := { id : string; name : string; total : Q }.
End Subject.

(** The [marks] field of a stored mark: a number, or [''] for a cleared
    cell. *)
Inductive markval : Type :=
  | MNum (q : Q)
  | MEmpty.

Module Mark.
Record t : Type :=
  { id : string; studentId : string; subjectId : string;
    sequence : string; marks : markval }.
End Mark.

(** The row built per student before ranking, and the ranked row. *)
Module SeqRow.
Record t : Type := { student : string; totalMarks : Q; average : number }.
End SeqRow.

Module SequenceResult.
Record t : Type :=
  { student : string; totalMarks : Q; average : number; rank : nat }.
End SequenceResult.

Module TermResult.
Record t : Type :=
  { student : string; totalMarks : Q; average : number; rank : nat }.
End TermResult.

Module AnnualResult.
Record t : Type :=
  { student : string;
    firstTermAverage : number;
    secondTermAverage : number;
    thirdTermAverage : number;
    finalAverage : number;
    rank : nat }.
End AnnualResult.

Inductive ResultView : Type :=
  | ViewSequence | ViewFirstTerm | ViewSecondTerm | ViewThirdTerm | ViewAnnual.

(** The state of the [App] component that the computations read and write. *)
Record AppState : Type :=
  { students : list Student.t;
    subjects : list Subject.t;
    marks : list Mark.t;
    selectedSequence : string;
    selectedResultView : ResultView;
    studentComments : gmap string (gmap string string);
    sequenceResults : list SequenceResult.t;
    firstTermResults : list TermResult.t;
    secondTermResults : list TermResult.t;
    thirdTermResults : list TermResult.t;
    annualResults : list AnnualResult.t;
    sequenceClassAverage : option number;
    firstTermClassAverage : option number;
    secondTermClassAverage : option number;
    thirdTermClassAverage : option number;
    annualClassAverage : option number;
    sequencePassPercentage : option number;
    firstTermPassPercentage : option number;
    secondTermPassPercentage : option number;
    thirdTermPassPercentage : option number;
    annualPassPercentage : option number }.

Definition PASSING_MARK : number := Fin 10.

(** ** Array helpers *)

(** [Array.prototype.sort] with a comparator.  ECMAScript requires the sort
    to be stable, and for a consistent comparator the result is the one
    sorted list that keeps tied elements in their input order; insertion from
    the right computes it.  [x] moves behind [y] exactly when [cmp x y > 0]
    (a [NaN] comparison counts as 0). *)
Fixpoint js_insert {A} (cmp : A -> A -> number) (x : A) (l : list A) : list A :=
  match l with
  | [] => [x]
  | y :: l' =>
      if js_gt (cmp x y) (Fin 0) then y :: js_insert cmp x l' else x :: l
  end.

Definition js_sort {A} (cmp : A -> A -> number) (l : list A) : list A :=
  foldr (js_insert cmp) [] l.

(** [x?.marks || 0]: a missing record and the empty string give 0 (a stored
    zero is replaced by the zero on the right, the same number). *)
Definition marks_or0 (found : option Mark.t) : markval :=
  match found with
  | None => MNum 0
  | Some m =>
      match Mark.marks m with
      | MNum q => MNum q
      | MEmpty => MNum 0
      end
  end.

(** [Number(v)] *)
Definition Number (v : markval) : Q :=
  match v with
  | MNum q => q
  | MEmpty => 0
  end.

(** [marks.find(m => m.studentId === student.id && m.subjectId === subject.id
    && m.sequence === sequence)] *)
Definition findMark (ms : list Mark.t) (student : Student.t)
    (subject : Subject.t) (sequence : string) : option Mark.t :=
  find (fun m =>
          String.eqb (Mark.studentId m) (Student.id student)
          && String.eqb (Mark.subjectId m) (Subject.id subject)
          && String.eqb (Mark.sequence m) sequence) ms.

(** The [subjects.forEach] loop shared by the sequence and term aggregators:
    it threads the pair (marks so far, possible so far). *)
Definition sumSubjects (st : AppState) (student : Student.t)
    (sequence : string) : Q * Q :=
  fold_left
    (fun acc subject =>
       let mark := marks_or0 (findMark (marks st) student subject sequence) in
       (fst acc + Number mark, snd acc + Subject.total subject))
    (subjects st) (0, 0).

(** ** Sequence aggregator: [calculateSequenceResults] *)

Definition sequenceRow (st : AppState) (student : Student.t) : SeqRow.t :=
  let '(totalMarks, totalPossible) :=
    sumSubjects st student (selectedSequence st) in
  let average :=
    if Qltb 0 totalPossible
    then js_mul (js_div (Fin totalMarks) (Fin totalPossible)) (Fin 20)
    else Fin 0 in
  {| SeqRow.student := Student.name student;
     SeqRow.totalMarks := totalMarks;
     SeqRow.average := average |}.

Definition sequenceRows (st : AppState) : list SeqRow.t :=
  map (sequenceRow st) (students st).

Definition withSeqRank (idx : nat) (result : SeqRow.t) : SequenceResult.t :=
  {| SequenceResult.student := SeqRow.student result;
     SequenceResult.totalMarks := SeqRow.totalMarks result;
     SequenceResult.average := SeqRow.average result;
     SequenceResult.rank := idx + 1 |}.

Definition sequenceRanked (st : AppState) : list SequenceResult.t :=
  let sortedResults :=
    js_sort (fun a b => js_sub (SeqRow.average b) (SeqRow.average a))
            (sequenceRows st) in
  imap withSeqRank sortedResults.

(** [results.reduce((sum, r) => sum + r.average, 0)] *)
Definition sumAverages (averages : list number) : number :=
  fold_left js_add averages (Fin 0).

Definition countPassing (averages : list number) : nat :=
  length (List.filter (fun a => js_ge a PASSING_MARK) averages).

Definition sequenceClassAvg (st : AppState) : number :=
  let results := sequenceRows st in
  js_or0 (js_div (sumAverages (map SeqRow.average results)) (js_length results)).

Definition sequencePassPerc (st : AppState) : number :=
  let results := sequenceRows st in
  let passCount := countPassing (map SeqRow.average results) in
  if (0 <? length results)%nat
  then js_mul (js_div (Fin (inject_Z (Z.of_nat passCount))) (js_length results))
              (Fin 100)
  else Fin 0.

Definition calculateSequenceResults (st : AppState) : AppState :=
  {| students := students st;
     subjects := subjects st;
     marks := marks st;
     selectedSequence := selectedSequence st;
     selectedResultView := ViewSequence;
     studentComments := studentComments st;
     sequenceResults := sequenceRanked st;
     firstTermResults := firstTermResults st;
     secondTermResults := secondTermResults st;
     thirdTermResults := thirdTermResults st;
     annualResults := annualResults st;
     sequenceClassAverage := Some (sequenceClassAvg st);
     firstTermClassAverage := firstTermClassAverage st;
     secondTermClassAverage := secondTermClassAverage st;
     thirdTermClassAverage := thirdTermClassAverage st;
     annualClassAverage := annualClassAverage st;
     sequencePassPercentage := Some (sequencePassPerc st);
     firstTermPassPercentage := firstTermPassPercentage st;
     secondTermPassPercentage := secondTermPassPercentage st;
     thirdTermPassPercentage := thirdTermPassPercentage st;
     annualPassPercentage := annualPassPercentage st |}.

(** ** Term and annual aggregators: [calculateTermResults] *)

(** The static schedule [termSequences]. *)
Definition termSequences_firstTerm : list string :=
  ["firstSequence"; "secondSequence"]%string.
Definition termSequences_secondTerm : list string :=
  ["thirdSequence"; "fourthSequence"]%string.
Definition termSequences_thirdTerm : list string :=
  ["fifthSequence"; "sixthSequence"]%string.

(** One round of [sequences.forEach]: the accumulator is
    (totalMarks, totalPossible, sequenceCount). *)
Definition termStep (st : AppState) (student : Student.t)
    (acc : Q * Q * nat) (sequence : string) : Q * Q * nat :=
  let '(totalMarks, totalPossible, sequenceCount) := acc in
  let '(sequenceMarks, sequencePossible) := sumSubjects st student sequence in
  if Qltb 0 sequenceMarks
  then (totalMarks + sequenceMarks, totalPossible + sequencePossible,
        S sequenceCount)
  else acc.

Definition termTotals (st : AppState) (sequences : list string)
    (student : Student.t) : Q * Q * nat :=
  fold_left (termStep st student) sequences (0, 0, 0%nat).

Definition termRow (st : AppState) (sequences : list string)
    (student : Student.t) : TermResult.t :=
  let '(totalMarks, totalPossible, sequenceCount) :=
    termTotals st sequences student in
  let average :=
    if (0 <? sequenceCount)%nat
    then js_mul (js_div (Fin totalMarks) (Fin totalPossible)) (Fin 20)
    else Fin 0 in
  {| TermResult.student := Student.name student;
     TermResult.totalMarks := totalMarks;
     TermResult.average := average;
     TermResult.rank := 0 |}.

Definition termRows (st : AppState) (sequences : list string)
  : list TermResult.t :=
  map (termRow st sequences) (students st).

Definition withTermRank (idx : nat) (result : TermResult.t) : TermResult.t :=
  {| TermResult.student := TermResult.student result;
     TermResult.totalMarks := TermResult.totalMarks result;
     TermResult.average := TermResult.average result;
     TermResult.rank := idx + 1 |}.

Definition calculateTerm (st : AppState) (term : string)
    (sequences : list string) : list TermResult.t :=
  let sortedResults :=
    js_sort (fun a b => js_sub (TermResult.average b) (TermResult.average a))
            (termRows st sequences) in
  imap withTermRank sortedResults.

(** [x || 0] where [x] may be [undefined]. *)
Definition js_opt_or0 (x : option number) : number :=
  match x with
  | None => Fin 0
  | Some a => js_or0 a
  end.

(** [results.find(r => r.student === student.name)?.average || 0] *)
Definition termAverageOf (results : list TermResult.t) (student : Student.t)
  : number :=
  js_opt_or0
    (option_map TermResult.average
       (find (fun r => String.eqb (TermResult.student r) (Student.name student))
             results)).

Definition validTermsOf (first second third : number) : list number :=
  List.filter (fun avg => js_gt avg (Fin 0)) [first; second; third].

Definition meanOrZero (valid : list number) : number :=
  if (0 <? length valid)%nat
  then js_div (sumAverages valid) (js_length valid)
  else Fin 0.

Definition annualRow (first second third : list TermResult.t)
    (student : Student.t) : AnnualResult.t :=
  let firstTermResult := termAverageOf first student in
  let secondTermResult := termAverageOf second student in
  let thirdTermResult := termAverageOf third student in
  let validTerms :=
    validTermsOf firstTermResult secondTermResult thirdTermResult in
  let finalAverage := meanOrZero validTerms in
  {| AnnualResult.student := Student.name student;
     AnnualResult.firstTermAverage := firstTermResult;
     AnnualResult.secondTermAverage := secondTermResult;
     AnnualResult.thirdTermAverage := thirdTermResult;
     AnnualResult.finalAverage := finalAverage;
     AnnualResult.rank := 0 |}.

Definition annualRows (sts : list Student.t)
    (first second third : list TermResult.t) : list AnnualResult.t :=
  map (annualRow first second third) sts.

Definition withAnnualRank (idx : nat) (result : AnnualResult.t)
  : AnnualResult.t :=
  {| AnnualResult.student := AnnualResult.student result;
     AnnualResult.firstTermAverage := AnnualResult.firstTermAverage result;
     AnnualResult.secondTermAverage := AnnualResult.secondTermAverage result;
     AnnualResult.thirdTermAverage := AnnualResult.thirdTermAverage result;
     AnnualResult.finalAverage := AnnualResult.finalAverage result;
     AnnualResult.rank := idx + 1 |}.

Definition annualRanked (sts : list Student.t)
    (first second third : list TermResult.t) : list AnnualResult.t :=
  let sortedAnnualResults :=
    js_sort (fun a b => js_sub (AnnualResult.finalAverage b)
                               (AnnualResult.finalAverage a))
            (annualRows sts first second third) in
  imap withAnnualRank sortedAnnualResults.

(** ** Statistics calculator: [calculateStats] *)

Record Stats : Type := { classAvg : number; passPerc : number }.

(** The argument carries the [isAnnual] flag: [inr] is an annual result set
    ([isAnnual = true]), [inl] a term result set. *)
Definition calculateStats
    (results : list TermResult.t + list AnnualResult.t) : Stats :=
  let averages :=
    match results with
    | inr annual => map AnnualResult.finalAverage annual
    | inl term => map TermResult.average term
    end in
  let validAverages := List.filter (fun avg => js_gt avg (Fin 0)) averages in
  let classAvg := meanOrZero validAverages in
  let passCount := countPassing validAverages in
  let passPerc :=
    if (0 <? length validAverages)%nat
    then js_mul (js_div (Fin (inject_Z (Z.of_nat passCount)))
                        (js_length validAverages))
                (Fin 100)
    else Fin 0 in
  {| classAvg := classAvg; passPerc := passPerc |}.

Definition calculateTermResults (st : AppState) : AppState :=
  let firstTermResults' :=
    calculateTerm st "firstTerm" termSequences_firstTerm in
  let secondTermResults' :=
    calculateTerm st "secondTerm" termSequences_secondTerm in
  let thirdTermResults' :=
    calculateTerm st "thirdTerm" termSequences_thirdTerm in
  let annualResultsWithRank :=
    annualRanked (students st)
                 firstTermResults' secondTermResults' thirdTermResults' in
  let firstTermStats := calculateStats (inl firstTermResults') in
  let secondTermStats := calculateStats (inl secondTermResults') in
  let thirdTermStats := calculateStats (inl thirdTermResults') in
  let annualStats := calculateStats (inr annualResultsWithRank) in
  {| students := students st;
     subjects := subjects st;
     marks := marks st;
     selectedSequence := selectedSequence st;
     selectedResultView := ViewFirstTerm;
     studentComments := studentComments st;
     sequenceResults := sequenceResults st;
     firstTermResults := firstTermResults';
     secondTermResults := secondTermResults';
     thirdTermResults := thirdTermResults';
     annualResults := annualResultsWithRank;
     sequenceClassAverage := sequenceClassAverage st;
     firstTermClassAverage := Some (classAvg firstTermStats);
     secondTermClassAverage := Some (classAvg secondTermStats);
     thirdTermClassAverage := Some (classAvg thirdTermStats);
     annualClassAverage := Some (classAvg annualStats);
     sequencePassPercentage := sequencePassPercentage st;
     firstTermPassPercentage := Some (passPerc firstTermStats);
     secondTermPassPercentage := Some (passPerc secondTermStats);
     thirdTermPassPercentage := Some (passPerc thirdTermStats);
     annualPassPercentage := Some (passPerc annualStats) |}.

(** ** Report compiler: [handleGenerateStudentReport] *)

(** [studentMarks] is an object literal with six own properties, each an
    empty object.  It is a plain object, so a read [studentMarks[k]] of any
    other key goes on to [Object.prototype]. *)
Definition sequenceLabels : list string :=
  ["firstSequence"; "secondSequence"; "thirdSequence";
   "fourthSequence"; "fifthSequence"; "sixthSequence"]%string.

Definition emptyStudentMarks : gmap string (gmap string markval) :=
  list_to_map (map (fun k => (k, ∅)) sequenceLabels).

(** The methods every plain object inherits from [Object.prototype]
    (ECMAScript 20.1.3 and B.2.2); [constructor] and the accessor [__proto__]
    are handled apart. *)
Definition objectPrototypeMethods : list string :=
  ["hasOwnProperty"; "isPrototypeOf"; "propertyIsEnumerable";
   "toLocaleString"; "toString"; "valueOf";
   "__defineGetter__"; "__defineSetter__";
   "__lookupGetter__"; "__lookupSetter__"]%string.

Definition objectPrototypeKeys : list string :=
  ("constructor" :: "__proto__" :: objectPrototypeMethods)%string.

(** What [studentMarks[k]] evaluates to. *)
Inductive target : Type :=
  | TOwn (inner : gmap string markval)   (* one of the six nested objects *)
  | TPrimitive                           (* a mark value found on the prototype *)
  | TObjectPrototype                     (* [studentMarks.__proto__] *)
  | TFunction (readonly : list string)   (* an inherited built-in function *)
  | TUndefined.

(** [polluted] holds the properties this run has already defined on
    [Object.prototype] (through a mark whose sequence is [__proto__]); their
    values are mark values, hence primitives, and they shadow the built-in
    properties.  At the call the prototype carries its standard properties
    only. *)
Definition readStudentMarks (studentMarks : gmap string (gmap string markval))
    (polluted : gmap string markval) (k : string) : target :=
  match studentMarks !! k with
  | Some inner => TOwn inner
  | None =>
      match polluted !! k with
      | Some _ => TPrimitive
      | None =>
          if String.eqb k "__proto__" then TObjectPrototype
          else if String.eqb k "constructor"
               then TFunction ["length"; "name"; "prototype"]%string
          else if existsb (String.eqb k) objectPrototypeMethods
               then TFunction ["length"; "name"]%string
          else TUndefined
      end
  end.

(** [studentMarks[k][n] = v] in strict mode (module code); [None] is a thrown
    [TypeError].  A primitive assigned to [__proto__] is ignored by the
    setter; a primitive cannot take a property; a function refuses its
    read-only properties and the poisoned [caller] and [arguments]. *)
Definition assignMark (studentMarks : gmap string (gmap string markval))
    (polluted : gmap string markval) (k n : string) (v : markval)
  : option (gmap string (gmap string markval) * gmap string markval) :=
  match readStudentMarks studentMarks polluted k with
  | TUndefined => None
  | TOwn inner =>
      if String.eqb n "__proto__" then Some (studentMarks, polluted)
      else Some (<[k := <[n := v]> inner]> studentMarks, polluted)
  | TPrimitive =>
      if String.eqb n "__proto__" then Some (studentMarks, polluted) else None
  | TObjectPrototype =>
      if String.eqb n "__proto__" then Some (studentMarks, polluted)
      else Some (studentMarks, <[n := v]> polluted)
  | TFunction readonly =>
      if String.eqb n "__proto__" then Some (studentMarks, polluted)
      else if existsb (String.eqb n)
                (readonly ++ ["caller"; "arguments"]%string)
      then None
      else Some (studentMarks, polluted)
  end.

(** One round of [marks.forEach]; an exception ends the loop. *)
Definition reportStep (studentId : string) (subjs : list Subject.t)
    (acc : option (gmap string (gmap string markval) * gmap string markval))
    (m : Mark.t)
  : option (gmap string (gmap string markval) * gmap string markval) :=
  match acc with
  | None => None
  | Some (studentMarks, polluted) =>
      if String.eqb (Mark.studentId m) studentId then
        match find (fun s => String.eqb (Subject.id s) (Mark.subjectId m)) subjs with
        | Some subject =>
            assignMark studentMarks polluted
                       (Mark.sequence m) (Subject.name subject) (Mark.marks m)
        | None => Some (studentMarks, polluted)
        end
      else Some (studentMarks, polluted)
  end.

Definition compileStudentMarks (studentId : string) (subjs : list Subject.t)
    (ms : list Mark.t)
  : option (gmap string (gmap string markval) * gmap string markval) :=
  fold_left (reportStep studentId subjs) ms (Some (emptyStudentMarks, ∅)).

(** A mark value as a condition: the empty string and zero are falsy. *)
Definition truthy (v : markval) : bool :=
  match v with
  | MNum q => negb (Qeq_bool q 0)
  | MEmpty => false
  end.

(** [studentComments[studentId] || {}]: the student's own entry; without
    one, what a plain object inherits under that name (a truthy mark value
    the loop has put on the prototype, or a built-in), else an empty
    object. *)
Inductive commentsArg : Type :=
  | CommentsOf (c : gmap string string)
  | CommentsPrimitive (v : markval)
  | CommentsInherited (k : string).

Definition commentsFor (st : AppState) (polluted : gmap string markval)
    (studentId : string) : commentsArg :=
  match studentComments st !! studentId with
  | Some c => CommentsOf c
  | None =>
      match polluted !! studentId with
      | Some v => if truthy v then CommentsPrimitive v else CommentsOf ∅
      | None =>
          if existsb (String.eqb studentId) objectPrototypeKeys
          then CommentsInherited studentId
          else CommentsOf ∅
      end
  end.

(** The arguments handed to the document generator (all but the translation
    function [t]). *)
Record ReportArgs : Type :=
  { report_studentName : string;
    report_studentId : string;
    report_studentMarks : gmap string (gmap string markval);
    report_subjects : list Subject.t;
    report_comments : commentsArg;
    report_selectedSequence : string;
    report_selectedResultView : ResultView;
    report_firstTermResults : list TermResult.t;
    report_secondTermResults : list TermResult.t;
    report_thirdTermResults : list TermResult.t;
    report_annualResults : list AnnualResult.t }.

Inductive ReportOutcome : Type :=
  | NoStudent                      (* unknown student id: nothing is done *)
  | Generated (args : ReportArgs)  (* [generateStudentReport] is called *)
  | TypeError.                     (* the loop over the marks threw *)

Definition handleGenerateStudentReport (st : AppState) (studentId : string)
  : ReportOutcome :=
  match find (fun s => String.eqb (Student.id s) studentId) (students st) with
  | None => NoStudent
  | Some student =>
      match compileStudentMarks studentId (subjects st) (marks st) with
      | None => TypeError
      | Some (studentMarks, polluted) =>
          Generated
            {| report_studentName := Student.name student;
               report_studentId := studentId;
               report_studentMarks := studentMarks;
               report_subjects := subjects st;
               report_comments := commentsFor st polluted studentId;
               report_selectedSequence := selectedSequence st;
               report_selectedResultView := selectedResultView st;
               report_firstTermResults := firstTermResults st;
               report_secondTermResults := secondTermResults st;
               report_thirdTermResults := thirdTermResults st;
               report_annualResults := annualResults st |}
      end
  end.

(** ** State setters and the store

    The handlers below first await one call to the document store
    ([addDoc], [updateDoc], [deleteDoc], [setDoc]) and then update the
    component state; a failed call is caught and only sets the error
    message.  The store is an external collaborator: its answer to the call
    is an input of the model.  A handler returns the new state and the error
    message it sets, if any. *)

Inductive StoreReply : Type :=
  | Stored (docId : string)     (* the call succeeded; [addDoc] gives the new id *)
  | Refused (message : string). (* the call threw [err] with this message *)

Definition setStudents (sts : list Student.t) (st : AppState) : AppState :=
  {| students := sts;
     subjects := subjects st;
     marks := marks st;
     selectedSequence := selectedSequence st;
     selectedResultView := selectedResultView st;
     studentComments := studentComments st;
     sequenceResults := sequenceResults st;
     firstTermResults := firstTermResults st;
     secondTermResults := secondTermResults st;
     thirdTermResults := thirdTermResults st;
     annualResults := annualResults st;
     sequenceClassAverage := sequenceClassAverage st;
     firstTermClassAverage := firstTermClassAverage st;
     secondTermClassAverage := secondTermClassAverage st;
     thirdTermClassAverage := thirdTermClassAverage st;
     annualClassAverage := annualClassAverage st;
     sequencePassPercentage := sequencePassPercentage st;
     firstTermPassPercentage := firstTermPassPercentage st;
     secondTermPassPercentage := secondTermPassPercentage st;
     thirdTermPassPercentage := thirdTermPassPercentage st;
     annualPassPercentage := annualPassPercentage st |}.

Definition setSubjects (subjs : list Subject.t) (st : AppState) : AppState :=
  {| students := students st;
     subjects := subjs;
     marks := marks st;
     selectedSequence := selectedSequence st;
     selectedResultView := selectedResultView st;
     studentComments := studentComments st;
     sequenceResults := sequenceResults st;
     firstTermResults := firstTermResults st;
     secondTermResults := secondTermResults st;
     thirdTermResults := thirdTermResults st;
     annualResults := annualResults st;
     sequenceClassAverage := sequenceClassAverage st;
     firstTermClassAverage := firstTermClassAverage st;
     secondTermClassAverage := secondTermClassAverage st;
     thirdTermClassAverage := thirdTermClassAverage st;
     annualClassAverage := annualClassAverage st;
     sequencePassPercentage := sequencePassPercentage st;
     firstTermPassPercentage := firstTermPassPercentage st;
     secondTermPassPercentage := secondTermPassPercentage st;
     thirdTermPassPercentage := thirdTermPassPercentage st;
     annualPassPercentage := annualPassPercentage st |}.

Definition setMarks (ms : list Mark.t) (st : AppState) : AppState :=
  {| students := students st;
     subjects := subjects st;
     marks := ms;
     selectedSequence := selectedSequence st;
     selectedResultView := selectedResultView st;
     studentComments := studentComments st;
     sequenceResults := sequenceResults st;
     firstTermResults := firstTermResults st;
     secondTermResults := secondTermResults st;
     thirdTermResults := thirdTermResults st;
     annualResults := annualResults st;
     sequenceClassAverage := sequenceClassAverage st;
     firstTermClassAverage := firstTermClassAverage st;
     secondTermClassAverage := secondTermClassAverage st;
     thirdTermClassAverage := thirdTermClassAverage st;
     annualClassAverage := annualClassAverage st;
     sequencePassPercentage := sequencePassPercentage st;
     firstTermPassPercentage := firstTermPassPercentage st;
     secondTermPassPercentage := secondTermPassPercentage st;
     thirdTermPassPercentage := thirdTermPassPercentage st;
     annualPassPercentage := annualPassPercentage st |}.

Definition setStudentComments (comments : gmap string (gmap string string))
    (st : AppState) : AppState :=
  {| students := students st;
     subjects := subjects st;
     marks := marks st;
     selectedSequence := selectedSequence st;
     selectedResultView := selectedResultView st;
     studentComments := comments;
     sequenceResults := sequenceResults st;
     firstTermResults := firstTermResults st;
     secondTermResults := secondTermResults st;
     thirdTermResults := thirdTermResults st;
     annualResults := annualResults st;
     sequenceClassAverage := sequenceClassAverage st;
     firstTermClassAverage := firstTermClassAverage st;
     secondTermClassAverage := secondTermClassAverage st;
     thirdTermClassAverage := thirdTermClassAverage st;
     annualClassAverage := annualClassAverage st;
     sequencePassPercentage := sequencePassPercentage st;
     firstTermPassPercentage := firstTermPassPercentage st;
     secondTermPassPercentage := secondTermPassPercentage st;
     thirdTermPassPercentage := thirdTermPassPercentage st;
     annualPassPercentage := annualPassPercentage st |}.


(** [setErrorMessage(t(key) + ': ' + err.message)] *)
Definition errorText (t : string -> string) (key message : string) : string :=
  (t key ++ ": " ++ message)%string.

(** ** Student handlers *)

Definition handleAddStudent (t : string -> string) (user : option string)
    (reply : StoreReply) (st : AppState) (name : string)
  : AppState * option string :=
  match user with
  | None => (st, None)
  | Some _ =>
      match reply with
      | Stored docId =>
          (setStudents
             (students st ++ [ {| Student.id := docId; Student.name := name |} ])
             st,
           None)
      | Refused message =>
          (st, Some (errorText t "error_adding_student" message))
      end
  end.

Definition handleEditStudent (t : string -> string) (user : option string)
    (reply : StoreReply) (st : AppState) (id name : string)
  : AppState * option string :=
  match user with
  | None => (st, None)
  | Some _ =>
      match reply with
      | Stored _ =>
          (setStudents
             (map (fun s =>
                     if String.eqb (Student.id s) id
                     then {| Student.id := Student.id s; Student.name := name |}
                     else s)
                  (students st))
             st,
           None)
      | Refused message =>
          (st, Some (errorText t "error_editing_student" message))
      end
  end.

Definition handleDeleteStudent (t : string -> string) (user : option string)
    (reply : StoreReply) (st : AppState) (id : string)
  : AppState * option string :=
  match user with
  | None => (st, None)
  | Some _ =>
      match reply with
      | Stored _ =>
          let updatedMarks :=
            List.filter (fun m => negb (String.eqb (Mark.studentId m) id))
                        (marks st) in
          let updatedComments := delete id (studentComments st) in
          (setStudentComments updatedComments
             (setMarks updatedMarks
                (setStudents
                   (List.filter (fun s => negb (String.eqb (Student.id s) id))
                                (students st))
                   st)),
           None)
      | Refused message =>
          (st, Some (errorText t "error_deleting_student" message))
      end
  end.

(** ** Subject handlers *)

Definition handleAddSubject (t : string -> string) (user : option string)
    (reply : StoreReply) (st : AppState) (name : string) (total : Q)
  : AppState * option string :=
  match user with
  | None => (st, None)
  | Some _ =>
      match reply with
      | Stored docId =>
          (setSubjects
             (subjects st
              ++ [ {| Subject.id := docId; Subject.name := name;
                      Subject.total := total |} ])
             st,
           None)
      | Refused message =>
          (st, Some (errorText t "error_adding_subject" message))
      end
  end.

Definition handleEditSubject (t : string -> string) (user : option string)
    (reply : StoreReply) (st : AppState) (id name : string) (total : Q)
  : AppState * option string :=
  match user with
  | None => (st, None)
  | Some _ =>
      match reply with
      | Stored _ =>
          (setSubjects
             (map (fun s =>
                     if String.eqb (Subject.id s) id
                     then {| Subject.id := Subject.id s; Subject.name := name;
                             Subject.total := total |}
                     else s)
                  (subjects st))
             st,
           None)
      | Refused message =>
          (st, Some (errorText t "error_editing_subject" message))
      end
  end.

Definition handleDeleteSubject (t : string -> string) (user : option string)
    (reply : StoreReply) (st : AppState) (id : string)
  : AppState * option string :=
  match user with
  | None => (st, None)
  | Some _ =>
      match reply with
      | Stored _ =>
          let updatedMarks :=
            List.filter (fun m => negb (String.eqb (Mark.subjectId m) id))
                        (marks st) in
          (setMarks updatedMarks
             (setSubjects
                (List.filter (fun s => negb (String.eqb (Subject.id s) id))
                             (subjects st))
                st),
           None)
      | Refused message =>
          (st, Some (errorText t "error_deleting_subject" message))
      end
  end.

(** ** Mark handler: [handleMarkChange] *)

(** The text of a cell, as the handler looks at it: empty, or the number
    [Number(mark)] reads in it ([NaN] when it reads none). *)
Inductive markInput : Type :=
  | EmptyText
  | Text (value : number).

(** [numericMark], when the handler accepts the text: [''] for the empty
    text, and a number that is not [NaN], is [>= 0] and is [<= maxTotal]. *)
Definition acceptedMark (mark : markInput) (maxTotal : Q) : option markval :=
  match mark with
  | EmptyText => Some MEmpty
  | Text numericMark =>
      if negb (is_NaN numericMark)
         && js_ge numericMark (Fin 0)
         && js_ge (Fin maxTotal) numericMark
      then match numericMark with
           | Fin q => Some (MNum q)
           | _ => None   (* no infinity is below [maxTotal] *)
           end
      else None
  end.

(** [marks.find(m => m.studentId === studentId && m.subjectId === subjectId
    && m.sequence === selectedSequence)] *)
Definition findMarkOf (ms : list Mark.t) (studentId subjectId sequence : string)
  : option Mark.t :=
  find (fun m =>
          String.eqb (Mark.studentId m) studentId
          && String.eqb (Mark.subjectId m) subjectId
          && String.eqb (Mark.sequence m) sequence) ms.

(** [{ ...m, marks: numericMark }] *)
Definition withMarks (numericMark : markval) (m : Mark.t) : Mark.t :=
  {| Mark.id := Mark.id m;
     Mark.studentId := Mark.studentId m;
     Mark.subjectId := Mark.subjectId m;
     Mark.sequence := Mark.sequence m;
     Mark.marks := numericMark |}.

Definition handleMarkChange (t : string -> string) (user : option string)
    (reply : StoreReply) (st : AppState)
    (studentId subjectId : string) (mark : markInput) (maxTotal : Q)
  : AppState * option string :=
  match acceptedMark mark maxTotal with
  | None => (st, None)
  | Some numericMark =>
      match user with
      | None => (st, None)
      | Some _ =>
          match findMarkOf (marks st) studentId subjectId (selectedSequence st) with
          | Some existingMark =>
              match reply with
              | Stored _ =>
                  (setMarks
                     (map (fun m =>
                             if String.eqb (Mark.id m) (Mark.id existingMark)
                             then withMarks numericMark m
                             else m)
                          (marks st))
                     st,
                   None)
              | Refused message =>
                  (st, Some (errorText t "error_saving_marks" message))
              end
          | None =>
              match numericMark with
              | MEmpty => (st, None)
              | MNum _ =>
                  match reply with
                  | Stored docId =>
                      (setMarks
                         (marks st
                          ++ [ {| Mark.id := docId;
                                  Mark.studentId := studentId;
                                  Mark.subjectId := subjectId;
                                  Mark.sequence := selectedSequence st;
                                  Mark.marks := numericMark |} ])
                         st,
                       None)
                  | Refused message =>
                      (st, Some (errorText t "error_saving_marks" message))
                  end
              end
          end
      end
  end.

(** The [onMarkChange] and [onSave] callbacks of the marks table and of the
    bulk entry: the student is taken by position, the subject by name. *)
Definition onMarkChange (t : string -> string) (user : option string)
    (reply : StoreReply) (st : AppState)
    (studentIndex : nat) (subject : string) (mark : markInput) (maxTotal : Q)
  : AppState * option string :=
  match students st !! studentIndex,
        find (fun s => String.eqb (Subject.name s) subject) (subjects st) with
  | Some student, Some subjectObj =>
      handleMarkChange t user reply st
                       (Student.id student) (Subject.id subjectObj) mark maxTotal
  | _, _ => (st, None)
  end.

(** ** Comment handler: [handleCommentChange] *)

(** [{ ...prev, [studentId]: { ...prev[studentId], [sequence]: comment } }];
    spreading what is not there (or a built-in inherited under that name,
    which has no enumerable property) adds nothing. *)
Definition handleCommentChange (t : string -> string) (user : option string)
    (reply : StoreReply) (st : AppState) (studentId sequence comment : string)
  : AppState * option string :=
  match user with
  | None => (st, None)
  | Some _ =>
      match reply with
      | Stored _ =>
          let prev := studentComments st in
          (setStudentComments
             (<[studentId := <[sequence := comment]> (default ∅ (prev !! studentId))]>
                prev)
             st,
           None)
      | Refused message =>
          (st, Some (errorText t "error_saving_comment" message))
      end
  end.

(** ** Reset: [handleResetData] *)

(** [confirmed] is the answer of [window.confirm]; [reply] stands for the
    whole run of deletions, which either all succeed or throw. *)
Definition handleResetData (t : string -> string) (user : option string)
    (confirmed : bool) (reply : StoreReply) (st : AppState)
  : AppState * option string :=
  match user with
  | None => (st, None)
  | Some _ =>
      if confirmed then
        match reply with
        | Stored _ =>
            ({| students := [];
                subjects := [];
                marks := [];
                selectedSequence := "firstSequence";
                selectedResultView := ViewSequence;
                studentComments := ∅;
                sequenceResults := [];
                firstTermResults := [];
                secondTermResults := [];
                thirdTermResults := [];
                annualResults := [];
                sequenceClassAverage := sequenceClassAverage st;
                firstTermClassAverage := firstTermClassAverage st;
                secondTermClassAverage := secondTermClassAverage st;
                thirdTermClassAverage := thirdTermClassAverage st;
                annualClassAverage := annualClassAverage st;
                sequencePassPercentage := sequencePassPercentage st;
                firstTermPassPercentage := firstTermPassPercentage st;
                secondTermPassPercentage := secondTermPassPercentage st;
                thirdTermPassPercentage := thirdTermPassPercentage st;
                annualPassPercentage := annualPassPercentage st |},
             None)
        | Refused message =>
            (st, Some (errorText t "error_resetting_data" message))
        end
      else (st, None)
  end.

(** ** Values computed at each render *)

(** [marks.some(m => m.marks !== '')] *)
Definition hasMarks (st : AppState) : bool :=
  existsb (fun m => match Mark.marks m with
                    | MEmpty => false
                    | MNum _ => true
                    end) (marks st).

(** The loop over the marks, started with the properties [polluted] that
    earlier runs have left on [Object.prototype]. *)
Definition compileFrom (polluted : gmap string markval) (studentId : string)
    (subjs : list Subject.t) (ms : list Mark.t)
  : option (gmap string (gmap string markval) * gmap string markval) :=
  fold_left (reportStep studentId subjs) ms (Some (emptyStudentMarks, polluted)).

(** [marksForTable]: one nested map per student, built like the report's;
    [None] when a write throws, which aborts the render. *)
Definition marksForTableStep (st : AppState)
    (acc : option (list (gmap string (gmap string markval))
                   * gmap string markval))
    (student : Student.t)
  : option (list (gmap string (gmap string markval)) * gmap string markval) :=
  match acc with
  | None => None
  | Some (rows, polluted) =>
      match compileFrom polluted (Student.id student) (subjects st) (marks st) with
      | None => None
      | Some (studentMarks, polluted') => Some (rows ++ [studentMarks], polluted')
      end
  end.

Definition marksForTable (st : AppState)
  : option (list (gmap string (gmap string markval))) :=
  option_map fst (fold_left (marksForTableStep st) (students st) (Some ([], ∅))).

(** ** All reports: [handleGenerateAllReports] *)

(** [handleGenerateStudentReport] started with the properties [polluted] on
    [Object.prototype]; it also returns what the run leaves there ([None]
    after a throw). *)
Definition generateReportFrom (polluted : gmap string markval) (st : AppState)
    (studentId : string) : ReportOutcome * option (gmap string markval) :=
  match find (fun s => String.eqb (Student.id s) studentId) (students st) with
  | None => (NoStudent, Some polluted)
  | Some student =>
      match compileFrom polluted studentId (subjects st) (marks st) with
      | None => (TypeError, None)
      | Some (studentMarks, polluted') =>
          (Generated
             {| report_studentName := Student.name student;
                report_studentId := studentId;
                report_studentMarks := studentMarks;
                report_subjects := subjects st;
                report_comments := commentsFor st polluted' studentId;
                report_selectedSequence := selectedSequence st;
                report_selectedResultView := selectedResultView st;
                report_firstTermResults := firstTermResults st;
                report_secondTermResults := secondTermResults st;
                report_thirdTermResults := thirdTermResults st;
                report_annualResults := annualResults st |},
           Some polluted')
      end
  end.

(** One round of [students.forEach]: the outcomes so far, and the state of
    the prototype, [None] once a report has thrown (the exception leaves the
    loop, so no later student is visited). *)
Definition allReportsStep (st : AppState)
    (acc : list ReportOutcome * option (gmap string markval))
    (student : Student.t)
  : list ReportOutcome * option (gmap string markval) :=
  match acc with
  | (outcomes, None) => (outcomes, None)
  | (outcomes, Some polluted) =>
      let '(outcome, polluted') :=
        generateReportFrom polluted st (Student.id student) in
      (outcomes ++ [outcome], polluted')
  end.

Definition handleGenerateAllReports (st : AppState) : list ReportOutcome :=
  fst (fold_left (allReportsStep st) (students st) ([], Some ∅)).

(** * The words of the specification

    The definitions below restate, in the specification's terms, what each
    result should hold; the properties compare them with the code above. *)

(** ** Sequence results *)

(** A sum, taken from left to right starting at 0. *)
Definition sumQ (l : list Q) : Q := fold_left Qplus l 0.

(** A student's mark value for a subject and a sequence: the value of the
    matching record (the first one, should several exist), 0 without one. *)
Definition markValue (st : AppState) (student : Student.t) (sequence : string)
    (subject : Subject.t) : Q :=
  match findMark (marks st) student subject sequence with
  | Some m => Number (Mark.marks m)
  | None => 0
  end.

Definition sequenceMarksOf (st : AppState) (student : Student.t)
    (sequence : string) : Q :=
  sumQ (map (markValue st student sequence) (subjects st)).

Definition possibleOf (st : AppState) : Q :=
  sumQ (map Subject.total (subjects st)).

(** [totalMarks / totalPossible * 20] when [totalPossible > 0], else 0. *)
Definition sequenceAverageQ (st : AppState) (student : Student.t) : Q :=
  let totalMarks := sequenceMarksOf st student (selectedSequence st) in
  let totalPossible := possibleOf st in
  if Qltb 0 totalPossible then totalMarks / totalPossible * 20 else 0.

(** The row the specification describes for a student in the sequence
    result. *)
Definition specSequenceRow (st : AppState) (student : Student.t) : SeqRow.t :=
  {| SeqRow.student := Student.name student;
     SeqRow.totalMarks := sequenceMarksOf st student (selectedSequence st);
     SeqRow.average := Fin (sequenceAverageQ st student) |}.


(** ** Ranking *)

(** The comparator of the three aggregators: [(a, b) => key(b) - key(a)]. *)
Definition byKeyDesc {A : Type} (key : A -> number) (a b : A) : number :=
  js_sub (key b) (key a).

(** [a] may stand before [b]: its key is at least the key of [b]. *)
Definition keyGe {A : Type} (key : A -> number) (a b : A) : Prop :=
  js_ge (key a) (key b) = true.

(** The rows whose key is the number [v]. *)
Definition keyIs {A : Type} (key : A -> number) (v : number) (a : A) : bool :=
  num_eqb (key a) v.

(** [ranked] is [rows] sorted by [key], largest first, ties in the order of
    [rows], and numbered from 1.  [unrank] forgets the rank of a row. *)
Definition RankedStably {A B : Type} (key : A -> number) (unrank : B -> A)
    (rank : B -> nat) (rows : list A) (ranked : list B) : Prop :=
  Permutation (map unrank ranked) rows
  /\ StronglySorted (keyGe key) (map unrank ranked)
  /\ (forall v : number,
        List.filter (keyIs key v) (map unrank ranked)
        = List.filter (keyIs key v) rows)
  /\ map rank ranked = seq 1 (length rows).

(** ** Term results *)

(** A sequence is entered for a student when the student's summed marks for
    it are strictly positive. *)
Definition entered (st : AppState) (student : Student.t) (sequence : string)
  : bool :=
  Qltb 0 (sequenceMarksOf st student sequence).

Definition enteredSequences (st : AppState) (student : Student.t)
    (sequences : list string) : list string :=
  List.filter (entered st student) sequences.

(** (totalMarks, totalPossible, sequenceCount) as the specification words
    them: only entered sequences contribute. *)
Definition specTermTotals (st : AppState) (sequences : list string)
    (student : Student.t) : Q * Q * nat :=
  let es := enteredSequences st student sequences in
  (sumQ (map (sequenceMarksOf st student) es),
   sumQ (map (fun _ => possibleOf st) es),
   length es).

(** [totalMarks / totalPossible * 20] for a positive [totalMarks]: a zero
    divisor gives [Infinity]. *)
Definition specTermAverage (st : AppState) (sequences : list string)
    (student : Student.t) : number :=
  let '(totalMarks, totalPossible, sequenceCount) :=
    specTermTotals st sequences student in
  if (0 <? sequenceCount)%nat
  then if Qeq_bool totalPossible 0 then PInf
       else Fin (totalMarks / totalPossible * 20)
  else Fin 0.

Definition specTermRow (st : AppState) (sequences : list string)
    (student : Student.t) : TermResult.t :=
  {| TermResult.student := Student.name student;
     TermResult.totalMarks := fst (fst (specTermTotals st sequences student));
     TermResult.average := specTermAverage st sequences student;
     TermResult.rank := 0 |}.


(** ** Means and annual results *)

(** The rationals of a list of numbers, when all of them are finite. *)
Fixpoint finiteValues (l : list number) : option (list Q) :=
  match l with
  | [] => Some []
  | Fin q :: l' => option_map (cons q) (finiteValues l')
  | _ :: _ => None
  end.

Definition meanQ (l : list Q) : Q :=
  sumQ l / inject_Z (Z.of_nat (length l)).

(** The arithmetic mean of positive numbers, 0 for none; an [Infinity] among
    them makes the mean [Infinity]. *)
Definition specMeanOrZero (l : list number) : number :=
  match l with
  | [] => Fin 0
  | _ :: _ =>
      match finiteValues l with
      | Some qs => Fin (meanQ qs)
      | None => PInf
      end
  end.

Definition finOrPInf (a : number) : Prop :=
  match a with
  | Fin _ | PInf => True
  | _ => False
  end.

(** The average of the first row that carries [name], 0 without one. *)
Definition averageByName (results : list TermResult.t) (name : string)
  : number :=
  match find (fun r => String.eqb (TermResult.student r) name) results with
  | Some r => TermResult.average r
  | None => Fin 0
  end.

Definition specAnnualRow (first second third : list TermResult.t)
    (student : Student.t) : AnnualResult.t :=
  let a1 := averageByName first (Student.name student) in
  let a2 := averageByName second (Student.name student) in
  let a3 := averageByName third (Student.name student) in
  let validTerms := List.filter (fun avg => js_gt avg (Fin 0)) [a1; a2; a3] in
  {| AnnualResult.student := Student.name student;
     AnnualResult.firstTermAverage := a1;
     AnnualResult.secondTermAverage := a2;
     AnnualResult.thirdTermAverage := a3;
     AnnualResult.finalAverage := specMeanOrZero validTerms;
     AnnualResult.rank := 0 |}.

Definition unrankAnnual (r : AnnualResult.t) : AnnualResult.t :=
  {| AnnualResult.student := AnnualResult.student r;
     AnnualResult.firstTermAverage := AnnualResult.firstTermAverage r;
     AnnualResult.secondTermAverage := AnnualResult.secondTermAverage r;
     AnnualResult.thirdTermAverage := AnnualResult.thirdTermAverage r;
     AnnualResult.finalAverage := AnnualResult.finalAverage r;
     AnnualResult.rank := 0 |}.

Definition noNaNAverage (results : list TermResult.t) : Prop :=
  Forall (fun r => is_NaN (TermResult.average r) = false) results.

(** The example of the specification: D has the term averages 14, 0, 16. *)
Definition studentD : Student.t := {| Student.id := "d"; Student.name := "D" |}.

Definition termRowD (avg : Q) : TermResult.t :=
  {| TermResult.student := "D"; TermResult.totalMarks := 0;
     TermResult.average := Fin avg; TermResult.rank := 1 |}.

(** ** Statistics *)

(** The number of averages that reach the passing mark. *)
Definition passCountQ (avgs : list Q) : nat :=
  length (List.filter (fun q => Qle_bool 10 q) avgs).

Definition natQ (n : nat) : Q := inject_Z (Z.of_nat n).

(** The averages that [calculateStats] keeps: the strictly positive ones. *)
Definition statAverages (results : list TermResult.t + list AnnualResult.t)
  : list number :=
  List.filter (fun avg => js_gt avg (Fin 0))
    match results with
    | inl term => map TermResult.average term
    | inr annual => map AnnualResult.finalAverage annual
    end.



(** ** Bounds *)



(** A mark is bounded when its value lies between 0 and the total of the
    subject it belongs to. *)
Definition markBounded (subjs : list Subject.t) (m : Mark.t) : Prop :=
  Forall (fun subj =>
            Mark.subjectId m = Subject.id subj ->
            0 <= Number (Mark.marks m) <= Subject.total subj) subjs.

Definition boundedSnapshot (st : AppState) : Prop :=
  subjects st <> []
  /\ Forall (fun subj => 0 < Subject.total subj) (subjects st)
  /\ Forall (markBounded (subjects st)) (marks st).


(** ** A worked snapshot

    The state of the component before any computation, and the example of the
    specification: two subjects out of 20 and two students; in the first
    sequence A has 18 and 16, B has 10 and 8. *)

Definition initialState (sts : list Student.t) (subjs : list Subject.t)
    (ms : list Mark.t) (sequence : string) : AppState :=
  {| students := sts;
     subjects := subjs;
     marks := ms;
     selectedSequence := sequence;
     selectedResultView := ViewSequence;
     studentComments := ∅;
     sequenceResults := [];
     firstTermResults := [];
     secondTermResults := [];
     thirdTermResults := [];
     annualResults := [];
     sequenceClassAverage := None;
     firstTermClassAverage := None;
     secondTermClassAverage := None;
     thirdTermClassAverage := None;
     annualClassAverage := None;
     sequencePassPercentage := None;
     firstTermPassPercentage := None;
     secondTermPassPercentage := None;
     thirdTermPassPercentage := None;
     annualPassPercentage := None |}.

Definition mkMark (student subject sequence : string) (value : Q) : Mark.t :=
  {| Mark.id := (student ++ subject ++ sequence)%string;
     Mark.studentId := student; Mark.subjectId := subject;
     Mark.sequence := sequence; Mark.marks := MNum value |}.

Definition exampleSubjects : list Subject.t :=
  [ {| Subject.id := "m"; Subject.name := "Maths"; Subject.total := 20 |};
    {| Subject.id := "e"; Subject.name := "English"; Subject.total := 20 |} ].

Definition exampleStudents : list Student.t :=
  [ {| Student.id := "a"; Student.name := "A" |};
    {| Student.id := "b"; Student.name := "B" |} ].

Definition exampleMarks : list Mark.t :=
  [ mkMark "a" "m" "firstSequence" 18; mkMark "a" "e" "firstSequence" 16;
    mkMark "b" "m" "firstSequence" 10; mkMark "b" "e" "firstSequence" 8 ].

Definition exampleState : AppState :=
  initialState exampleStudents exampleSubjects exampleMarks "firstSequence".

(** ** The snapshot and the output of the sequence aggregator *)

Definition snapshotOf (st : AppState)
  : list Student.t * list Subject.t * list Mark.t * string :=
  (students st, subjects st, marks st, selectedSequence st).

Definition sequenceOutput (st : AppState)
  : list SequenceResult.t * option number * option number :=
  (sequenceResults st, sequenceClassAverage st, sequencePassPercentage st).

Definition aggregateSequence
    (snap : list Student.t * list Subject.t * list Mark.t * string)
  : list SequenceResult.t * option number * option number :=
  let '(sts, subjs, ms, sequence) := snap in
  sequenceOutput (calculateSequenceResults (initialState sts subjs ms sequence)).

(** ** Report compilation *)

Definition isSequenceLabel (k : string) : bool :=
  existsb (String.eqb k) sequenceLabels.

(** The names a plain object inherits from [Object.prototype]. *)
Definition isInheritedKey (k : string) : bool :=
  existsb (String.eqb k) objectPrototypeKeys.

(** The own properties of [studentMarks] are the six labels. *)
Definition ownSix (studentMarks : gmap string (gmap string markval)) : Prop :=
  dom studentMarks = list_to_set sequenceLabels.

(** Every mark of the student carries one of the six labels. *)
Definition labelledWithin (studentId : string) (ms : list Mark.t) : Prop :=
  Forall (fun m => Mark.studentId m = studentId ->
                   isSequenceLabel (Mark.sequence m) = true) ms.

(** A snapshot in which pupil A has a mark under the label [sequence]. *)
Definition labelledState (sequence : string) : AppState :=
  initialState exampleStudents exampleSubjects
               [mkMark "a" "m" sequence 15] "firstSequence".

Definition emptyState : AppState := initialState [] [] [] "firstSequence".

(** ** Handlers *)

(** The cell a mark belongs to. *)
Definition markKey (m : Mark.t) : string * string * string :=
  (Mark.studentId m, Mark.subjectId m, Mark.sequence m).

(** Every mark refers to a student and to a subject of the state. *)
Definition referenced (st : AppState) : Prop :=
  Forall (fun m =>
            In (Mark.studentId m) (map Student.id (students st))
            /\ In (Mark.subjectId m) (map Subject.id (subjects st)))
         (marks st).

(** The state a handler leaves when the user is signed in and the store
    accepts the call. *)
Definition afterMarkChange (st : AppState) (docId studentId subjectId : string)
    (mark : markInput) (maxTotal : Q) : AppState :=
  fst (handleMarkChange (fun key => key) (Some "uid"%string) (Stored docId) st
                        studentId subjectId mark maxTotal).

(** What a ranked row shows beside the student's name. *)
Definition seqFigures (r : SequenceResult.t) : Q * number * nat :=
  (SequenceResult.totalMarks r, SequenceResult.average r, SequenceResult.rank r).

Definition termFigures (r : TermResult.t) : Q * number * nat :=
  (TermResult.totalMarks r, TermResult.average r, TermResult.rank r).

(** ** The cells of a report *)




(** Every mark of the list carries one of the six labels. *)
Definition allLabelled (ms : list Mark.t) : Prop :=
  Forall (fun m => isSequenceLabel (Mark.sequence m) = true) ms.

(** The report of pupil A in the worked snapshot. *)
Definition exampleReport : ReportArgs :=
  {| report_studentName := "A";
     report_studentId := "a";
     report_studentMarks :=
       <["firstSequence" := <["English" := MNum 16]> (<["Maths" := MNum 18]> ∅)]>
         emptyStudentMarks;
     report_subjects := exampleSubjects;
     report_comments := CommentsOf ∅;
     report_selectedSequence := "firstSequence";
     report_selectedResultView := ViewSequence;
     report_firstTermResults := [];
     report_secondTermResults := [];
     report_thirdTermResults := [];
     report_annualResults := [] |}.

(** The same report once the comment "Good" is saved for the first
    sequence. *)
Definition exampleCommented : ReportArgs :=
  {| report_studentName := "A";
     report_studentId := "a";
     report_studentMarks := report_studentMarks exampleReport;
     report_subjects := exampleSubjects;
     report_comments := CommentsOf (<["firstSequence" := "Good"%string]> ∅);
     report_selectedSequence := "firstSequence";
     report_selectedResultView := ViewSequence;
     report_firstTermResults := [];
     report_secondTermResults := [];
     report_thirdTermResults := [];
     report_annualResults := [] |}.

(** The nested map the loop over the marks builds for a student. *)
Definition studentMarksOf (st : AppState) (student : Student.t)
  : gmap string (gmap string markval) :=
  match compileStudentMarks (Student.id student) (subjects st) (marks st) with
  | Some (studentMarks, _) => studentMarks
  | None => ∅
  end.

(** ** A sequence seen from its term *)



(** ** Percentages *)

(** A finite number between 0 and 100. *)
Definition isPercentage (a : number) : Prop :=
  match a with
  | Fin q => 0 <= q <= 100
  | _ => False
  end.

Definition optPercentage (o : option number) : Prop :=
  match o with
  | Some a => isPercentage a
  | None => False
  end.

(** ** The store comes first *)

(** A handler that ends in [out] has changed nothing of [st] unless the
    user is signed in and the store has accepted the call, and has set an
    error message only after the store refused. *)
Definition failSafe (st : AppState) (user : option string) (reply : StoreReply)
    (out : AppState * option string) : Prop :=
  ((user = None \/ exists message, reply = Refused message) -> fst out = st)
  /\ (forall e, snd out = Some e ->
                user <> None /\ fst out = st
                /\ exists message, reply = Refused message).

(** ** Orphan marks *)

(** The student and the subject of the mark are both listed. *)
Definition isListedMark (st : AppState) (m : Mark.t) : bool :=
  existsb (fun s => String.eqb (Student.id s) (Mark.studentId m)) (students st)
  && existsb (fun s => String.eqb (Subject.id s) (Mark.subjectId m))
             (subjects st).

(** The state without its orphan marks, those of a student or of a subject
    that is not listed. *)
Definition withoutOrphans (st : AppState) : AppState :=
  setMarks (List.filter (isListedMark st) (marks st)) st.

(** * Properties *)

(** ** Lists *)

Lemma Forall_map_intro {X Y : Type} (f : X -> Y) (P : Y -> Prop) (l : list X) :
  (forall x, In x l -> P (f x)) -> Forall P (map f l).
Proof.
  intros H. apply List.Forall_forall. intros y Hy.
  apply in_map_iff in Hy as [x [<- Hx]]. now apply H.
Qed.

(** ** Numbers *)

Lemma Qltb_lt (x y : Q) : Qltb x y = true <-> x < y.
Proof.
  unfold Qltb. rewrite negb_true_iff.
  destruct (Qle_bool y x) eqn:E.
  - apply Qle_bool_iff in E. split; [discriminate | intros H; lra].
  - split; [intros _ | reflexivity].
    destruct (Qlt_le_dec x y) as [H | H]; [exact H |].
    apply Qle_bool_iff in H. congruence.
Qed.

Lemma Qltb_ge (x y : Q) : Qltb x y = false <-> y <= x.
Proof.
  unfold Qltb. rewrite negb_false_iff. apply Qle_bool_iff.
Qed.

Lemma Qeq_bool_false_pos (x : Q) : 0 < x -> Qeq_bool x 0 = false.
Proof.
  intros H. destruct (Qeq_bool x 0) eqn:E; [| reflexivity].
  apply Qeq_bool_iff in E. lra.
Qed.

Lemma js_div_pos (x y : Q) : 0 < y -> js_div (Fin x) (Fin y) = Fin (x / y).
Proof. intros H. simpl. now rewrite Qeq_bool_false_pos. Qed.

(** ** The loop over the subjects *)

Lemma Number_marks_or0 (st : AppState) student subject sequence :
  Number (marks_or0 (findMark (marks st) student subject sequence))
  = markValue st student sequence subject.
Proof.
  unfold markValue. destruct (findMark _ _ _ _) as [m |]; simpl; [| reflexivity].
  destruct (Mark.marks m); reflexivity.
Qed.

Lemma sumSubjects_fold (st : AppState) student sequence
    (l : list Subject.t) (a b : Q) :
  fold_left
    (fun acc subject =>
       let mark := marks_or0 (findMark (marks st) student subject sequence) in
       (fst acc + Number mark, snd acc + Subject.total subject))
    l (a, b)
  = (fold_left Qplus (map (markValue st student sequence) l) a,
     fold_left Qplus (map Subject.total l) b).
Proof.
  revert a b. induction l as [| s l IH]; intros a b; simpl; [reflexivity |].
  rewrite Number_marks_or0. apply IH.
Qed.

Lemma sumSubjects_spec (st : AppState) student sequence :
  sumSubjects st student sequence
  = (sequenceMarksOf st student sequence, possibleOf st).
Proof. apply sumSubjects_fold. Qed.

Lemma sequenceRow_spec (st : AppState) (student : Student.t) :
  sequenceRow st student = specSequenceRow st student.
Proof.
  unfold sequenceRow, specSequenceRow, sequenceAverageQ.
  rewrite sumSubjects_spec.
  destruct (Qltb 0 (possibleOf st)) eqn:E; [| reflexivity].
  apply Qltb_lt in E. rewrite js_div_pos by exact E. reflexivity.
Qed.

(** ** The order on numbers *)

Lemma js_gt_sub (a b : number) : js_gt (js_sub b a) (Fin 0) = js_gt b a.
Proof.
  destruct a as [x | | |], b as [y | | |]; simpl; try reflexivity.
  destruct (Qltb x y) eqn:E.
  - apply Qltb_lt in E. apply Qltb_lt. lra.
  - apply Qltb_ge in E. apply Qltb_ge. lra.
Qed.

Lemma js_gt_ge (a b : number) : js_gt a b = true -> js_ge a b = true.
Proof.
  destruct a as [x | | |], b as [y | | |]; simpl; try congruence.
  intros H. apply Qltb_lt in H. apply Qle_bool_iff. lra.
Qed.

Lemma js_not_gt_ge (a b : number) :
  is_NaN a = false -> is_NaN b = false ->
  js_gt b a = false -> js_ge a b = true.
Proof.
  destruct a as [x | | |], b as [y | | |]; simpl; try congruence.
  intros _ _ H. apply Qltb_ge in H. now apply Qle_bool_iff.
Qed.

Lemma js_ge_trans (a b c : number) :
  js_ge a b = true -> js_ge b c = true -> js_ge a c = true.
Proof.
  destruct a as [x | | |], b as [y | | |], c as [z | | |];
    simpl; try congruence.
  rewrite !Qle_bool_iff. intros; lra.
Qed.

Lemma js_ge_antisym (a b : number) :
  js_ge a b = true -> js_ge b a = true -> num_eqb a b = true.
Proof.
  destruct a as [x | | |], b as [y | | |]; simpl; try congruence.
  rewrite !Qle_bool_iff. intros H1 H2. apply Qeq_bool_iff. lra.
Qed.

Lemma num_eqb_refl (a : number) : num_eqb a a = true.
Proof. destruct a; simpl; [apply Qeq_bool_refl | reflexivity ..]. Qed.

Lemma js_gt_not_eq (a b v : number) :
  js_gt b a = true -> num_eqb a v = true -> num_eqb b v = false.
Proof.
  destruct a as [x | | |], b as [y | | |], v as [z | | |];
    simpl; try congruence.
  intros H1 H2. apply Qltb_lt in H1. apply Qeq_bool_iff in H2.
  destruct (Qeq_bool y z) eqn:E; [| reflexivity].
  apply Qeq_bool_iff in E. lra.
Qed.

(** ** Sorting by a key, largest first *)

Section JsSort.
Context {A : Type} (key : A -> number).

Lemma js_insert_perm (cmp : A -> A -> number) (x : A) (l : list A) :
  Permutation (js_insert cmp x l) (x :: l).
Proof.
  induction l as [| y l IH]; simpl; [reflexivity |].
  destruct (js_gt (cmp x y) (Fin 0)); [| reflexivity].
  rewrite IH. apply perm_swap.
Qed.

Lemma js_sort_perm (cmp : A -> A -> number) (l : list A) :
  Permutation (js_sort cmp l) l.
Proof.
  induction l as [| x l IH]; simpl; [reflexivity |].
  rewrite js_insert_perm. now rewrite IH.
Qed.

Lemma js_insert_stable (v : number) (x : A) (l : list A) :
  List.filter (keyIs key v) (js_insert (byKeyDesc key) x l)
  = List.filter (keyIs key v) (x :: l).
Proof.
  induction l as [| y l IH]; [reflexivity |].
  cbn [js_insert]. unfold byKeyDesc at 1. rewrite js_gt_sub.
  destruct (js_gt (key y) (key x)) eqn:G; [| reflexivity].
  cbn [List.filter] in *. rewrite IH.
  destruct (keyIs key v x) eqn:Px; [| reflexivity].
  unfold keyIs in *. now rewrite (js_gt_not_eq _ _ _ G Px).
Qed.

Lemma js_sort_stable (v : number) (l : list A) :
  List.filter (keyIs key v) (js_sort (byKeyDesc key) l)
  = List.filter (keyIs key v) l.
Proof.
  induction l as [| x l IH]; [reflexivity |].
  cbn [js_sort foldr]. rewrite js_insert_stable.
  cbn [List.filter]. fold (js_sort (byKeyDesc key) l). now rewrite IH.
Qed.

Lemma js_insert_sorted (x : A) (l : list A) :
  is_NaN (key x) = false ->
  Forall (fun a => is_NaN (key a) = false) l ->
  StronglySorted (keyGe key) l ->
  StronglySorted (keyGe key) (js_insert (byKeyDesc key) x l).
Proof.
  intros Hx Hl Hs. induction Hs as [| y l Hs IH Hy].
  - repeat constructor.
  - cbn [js_insert]. unfold byKeyDesc at 1. rewrite js_gt_sub.
    apply Forall_cons_1 in Hl as [Hny Hl].
    destruct (js_gt (key y) (key x)) eqn:G.
    + constructor; [now apply IH |].
      rewrite (js_insert_perm (byKeyDesc key) x l). constructor; [| exact Hy].
      now apply js_gt_ge.
    + assert (Hxy : (keyGe key) x y) by now apply js_not_gt_ge.
      constructor; [now constructor |].
      constructor; [exact Hxy |].
      eapply List.Forall_impl; [| exact Hy].
      intros z Hz. unfold keyGe in *. eapply js_ge_trans; eassumption.
Qed.

Lemma js_sort_sorted (l : list A) :
  Forall (fun a => is_NaN (key a) = false) l ->
  StronglySorted (keyGe key) (js_sort (byKeyDesc key) l).
Proof.
  induction l as [| x l IH]; intros H; [constructor |].
  apply Forall_cons_1 in H as [Hx Hl].
  cbn [js_sort foldr]. apply js_insert_sorted; [exact Hx | | now apply IH].
  fold (js_sort (byKeyDesc key) l). now rewrite js_sort_perm.
Qed.
(** Sortedness and stability leave no choice: whatever stable sort an engine
    runs, with this comparator it returns the list [js_sort] computes. *)
Lemma stable_sorted_unique (l1 l2 : list A) :
  StronglySorted (keyGe key) l1 ->
  StronglySorted (keyGe key) l2 ->
  (forall v, List.filter (keyIs key v) l1 = List.filter (keyIs key v) l2) ->
  l1 = l2.
Proof.
  revert l2. induction l1 as [| x l1 IH]; intros l2 H1 H2 Hf.
  - destruct l2 as [| y l2]; [reflexivity |].
    specialize (Hf (key y)). cbn [List.filter] in Hf.
    unfold keyIs at 1 in Hf. now rewrite num_eqb_refl in Hf.
  - destruct l2 as [| y l2].
    { specialize (Hf (key x)). cbn [List.filter] in Hf.
      unfold keyIs at 1 in Hf. now rewrite num_eqb_refl in Hf. }
    apply StronglySorted_inv in H1 as [H1 Hx].
    apply StronglySorted_inv in H2 as [H2 Hy].
    assert (E : x = y).
    { assert (Hyin : In y (x :: l1)).
      { eapply (proj1 (filter_In (keyIs key (key y)) y (x :: l1))).
        rewrite Hf. cbn [List.filter]. unfold keyIs at 1.
        rewrite num_eqb_refl. now left. }
      assert (Hxin : In x (y :: l2)).
      { eapply (proj1 (filter_In (keyIs key (key x)) x (y :: l2))).
        rewrite <- Hf. cbn [List.filter]. unfold keyIs at 1.
        rewrite num_eqb_refl. now left. }
      destruct Hyin as [E | Hyin]; [exact E |].
      destruct Hxin as [E | Hxin]; [now symmetry |].
      rewrite List.Forall_forall in Hx, Hy.
      specialize (Hx y Hyin). specialize (Hy x Hxin).
      pose proof (js_ge_antisym _ _ Hy Hx) as Eq.
      specialize (Hf (key x)). cbn [List.filter] in Hf.
      change (keyIs key (key x) x) with (num_eqb (key x) (key x)) in Hf.
      change (keyIs key (key x) y) with (num_eqb (key y) (key x)) in Hf.
      rewrite num_eqb_refl, Eq in Hf. now injection Hf. }
    subst y. f_equal. apply IH; [exact H1 | exact H2 |].
    intros v. specialize (Hf v). cbn [List.filter] in Hf.
    destruct (keyIs key v x); [now injection Hf | exact Hf].
Qed.

Lemma js_sort_unique (rows l : list A) :
  Forall (fun a => is_NaN (key a) = false) rows ->
  StronglySorted (keyGe key) l ->
  (forall v, List.filter (keyIs key v) l = List.filter (keyIs key v) rows) ->
  l = js_sort (byKeyDesc key) rows.
Proof.
  intros Hn Hs Hf. apply stable_sorted_unique; [exact Hs | |].
  - now apply js_sort_sorted.
  - intros v. now rewrite js_sort_stable.
Qed.
End JsSort.

(** ** Ranking *)

Section Ranking.
Context {A B : Type} (key : A -> number).
Context (withRank : nat -> A -> B) (unrank : B -> A) (rank : B -> nat).

Lemma unrank_imap (f : nat -> A -> B) (l : list A) :
  (forall i a, In a l -> unrank (f i a) = a) ->
  map unrank (imap f l) = l.
Proof.
  revert f. induction l as [| x l IH]; intros f H; [reflexivity |].
  cbn [imap map]. rewrite H by now left. f_equal.
  apply IH. intros i a Ha. apply H. now right.
Qed.

Lemma rank_imap (f : nat -> A -> B) (k : nat) (l : list A) :
  (forall i a, rank (f i a) = (i + k)%nat) ->
  map rank (imap f l) = seq k (length l).
Proof.
  revert f k. induction l as [| x l IH]; intros f k H; [reflexivity |].
  cbn [imap map length seq]. rewrite H. f_equal.
  apply IH. intros i a. unfold compose. rewrite H. lia.
Qed.

Lemma ranked_stably (rows : list A) :
  (forall i a, In a rows -> unrank (withRank i a) = a) ->
  (forall i a, rank (withRank i a) = (i + 1)%nat) ->
  Forall (fun a => is_NaN (key a) = false) rows ->
  RankedStably key unrank rank rows
               (imap withRank (js_sort (byKeyDesc key) rows)).
Proof.
  intros Hun Hrk Hnan.
  assert (Hperm := js_sort_perm (byKeyDesc key) rows).
  assert (E : map unrank (imap withRank (js_sort (byKeyDesc key) rows))
              = js_sort (byKeyDesc key) rows).
  { apply unrank_imap. intros i a Ha. apply Hun.
    eapply Permutation_in; eassumption. }
  unfold RankedStably. rewrite E. repeat split.
  - exact Hperm.
  - now apply js_sort_sorted.
  - intros v. apply js_sort_stable.
  - rewrite (rank_imap withRank 1) by exact Hrk.
    now rewrite (Permutation_length Hperm).
Qed.
End Ranking.

(** ** Sequence results *)

Lemma sequenceRows_spec (st : AppState) :
  sequenceRows st = map (specSequenceRow st) (students st).
Proof.
  unfold sequenceRows. apply map_ext. intros s. apply sequenceRow_spec.
Qed.




(** ** Term results *)

Lemma termStep_entered (st : AppState) student (a b : Q) (n : nat) s :
  termStep st student (a, b, n) s
  = if entered st student s
    then (a + sequenceMarksOf st student s, b + possibleOf st, S n)
    else (a, b, n).
Proof. unfold termStep. now rewrite sumSubjects_spec. Qed.

Lemma termTotals_fold (st : AppState) student (l : list string)
    (a b : Q) (n : nat) :
  fold_left (termStep st student) l (a, b, n)
  = (fold_left Qplus
       (map (sequenceMarksOf st student) (enteredSequences st student l)) a,
     fold_left Qplus
       (map (fun _ => possibleOf st) (enteredSequences st student l)) b,
     (n + length (enteredSequences st student l))%nat).
Proof.
  unfold enteredSequences.
  revert a b n. induction l as [| s l IH]; intros a b n.
  - simpl. now rewrite Nat.add_0_r.
  - cbn [fold_left List.filter]. rewrite termStep_entered.
    destruct (entered st student s).
    + rewrite IH. cbn [map fold_left length]. f_equal. lia.
    + apply IH.
Qed.

Lemma termTotals_spec (st : AppState) sequences student :
  termTotals st sequences student = specTermTotals st sequences student.
Proof. apply termTotals_fold. Qed.

Lemma fold_Qplus_ge (l : list Q) (a : Q) :
  Forall (fun q => 0 <= q) l -> a <= fold_left Qplus l a.
Proof.
  revert a. induction l as [| x l IH]; intros a H; simpl; [lra |].
  apply Forall_cons_1 in H as [Hx Hl].
  specialize (IH (a + x) Hl). lra.
Qed.

Lemma sumQ_pos (l : list Q) :
  Forall (fun q => 0 < q) l -> l <> [] -> 0 < sumQ l.
Proof.
  destruct l as [| x l]; [congruence |]. intros H _.
  apply Forall_cons_1 in H as [Hx Hl].
  unfold sumQ. simpl.
  assert (0 + x <= fold_left Qplus l (0 + x)).
  { apply fold_Qplus_ge. eapply List.Forall_impl; [| exact Hl].
    intros; simpl in *; lra. }
  lra.
Qed.

Lemma entered_marks_pos (st : AppState) student sequences :
  Forall (fun q => 0 < q)
         (map (sequenceMarksOf st student)
              (enteredSequences st student sequences)).
Proof.
  apply Forall_map_intro. intros s Hs.
  apply filter_In in Hs as [_ Hs]. now apply Qltb_lt.
Qed.

Lemma js_average_pos (tm tp : Q) :
  0 < tm ->
  js_mul (js_div (Fin tm) (Fin tp)) (Fin 20)
  = if Qeq_bool tp 0 then PInf else Fin (tm / tp * 20).
Proof.
  intros H. cbn [js_div].
  destruct (Qeq_bool tp 0); [| reflexivity].
  rewrite (Qeq_bool_false_pos _ H).
  apply Qltb_lt in H. rewrite H. reflexivity.
Qed.

Lemma termRow_spec (st : AppState) sequences student :
  termRow st sequences student = specTermRow st sequences student.
Proof.
  unfold termRow, specTermRow, specTermAverage.
  rewrite termTotals_spec.
  destruct (specTermTotals st sequences student) as [[tm tp] c] eqn:E.
  cbn [fst]. f_equal.
  destruct (0 <? c)%nat eqn:Hc; [| reflexivity].
  apply js_average_pos.
  unfold specTermTotals in E. injection E as <- _ <-.
  apply sumQ_pos; [apply entered_marks_pos |].
  apply Nat.ltb_lt in Hc. intros E.
  apply (f_equal (@length Q)) in E. rewrite length_map in E.
  simpl in E. lia.
Qed.

(** Marks that are all zero add up to zero: the sequence is not entered. *)
Lemma all_zero_not_entered (st : AppState) student sequence :
  (forall subject, In subject (subjects st) ->
                   markValue st student sequence subject == 0) ->
  entered st student sequence = false.
Proof.
  intros H. unfold entered. apply Qltb_ge.
  unfold sequenceMarksOf, sumQ.
  assert (G : forall a, a <= 0 ->
              fold_left Qplus
                (map (markValue st student sequence) (subjects st)) a <= 0).
  { induction (subjects st) as [| s l IH]; intros a Ha; [exact Ha |].
    cbn [map fold_left]. apply IH.
    - intros subject Hs. apply H. now right.
    - rewrite (H s (or_introl eq_refl)). lra. }
  apply G. lra.
Qed.




(** ** Means *)

Lemma js_gt_0_finOrPInf (a : number) : js_gt a (Fin 0) = true -> finOrPInf a.
Proof. destruct a; simpl; congruence || trivial. Qed.

Lemma inject_nat_pos (n : nat) : (0 < n)%nat -> 0 < inject_Z (Z.of_nat n).
Proof. intros H. unfold Qlt. simpl. lia. Qed.

Lemma fold_js_add_PInf (l : list number) :
  Forall finOrPInf l -> fold_left js_add l PInf = PInf.
Proof.
  induction l as [| a l IH]; intros H; [reflexivity |].
  apply Forall_cons_1 in H as [Ha Hl].
  destruct a; simpl in *; try contradiction; now apply IH.
Qed.

Lemma fold_js_add_Fin (l : list number) (a : Q) :
  Forall finOrPInf l ->
  fold_left js_add l (Fin a)
  = match finiteValues l with
    | Some qs => Fin (fold_left Qplus qs a)
    | None => PInf
    end.
Proof.
  revert a. induction l as [| x l IH]; intros a H; [reflexivity |].
  apply Forall_cons_1 in H as [Hx Hl].
  destruct x as [q | | |]; simpl in *; try contradiction.
  - rewrite IH by exact Hl. now destruct (finiteValues l).
  - now apply fold_js_add_PInf.
Qed.

Lemma finiteValues_length (l : list number) (qs : list Q) :
  finiteValues l = Some qs -> length qs = length l.
Proof.
  revert qs. induction l as [| x l IH]; intros qs H; simpl in H.
  - now injection H as <-.
  - destruct x; try discriminate.
    destruct (finiteValues l) as [qs' |]; [| discriminate].
    injection H as <-. simpl. f_equal. now apply IH.
Qed.

Lemma meanOrZero_spec (l : list number) :
  Forall finOrPInf l -> meanOrZero l = specMeanOrZero l.
Proof.
  intros H. unfold meanOrZero, specMeanOrZero, sumAverages, js_length.
  destruct l as [| x l]; [reflexivity |].
  assert (Hn : 0 < inject_Z (Z.of_nat (length (x :: l)))).
  { apply inject_nat_pos. simpl. lia. }
  replace (0 <? length (x :: l))%nat with true
    by (symmetry; apply Nat.ltb_lt; simpl; lia).
  rewrite fold_js_add_Fin by exact H.
  destruct (finiteValues (x :: l)) as [qs |] eqn:E.
  - rewrite js_div_pos by exact Hn. unfold meanQ, sumQ.
    now rewrite (finiteValues_length _ _ E).
  - cbn [js_div]. replace (Qltb _ 0) with false; [reflexivity |].
    symmetry. apply Qltb_ge. lra.
Qed.

Lemma filter_gt_0_finOrPInf (l : list number) :
  Forall finOrPInf (List.filter (fun avg => js_gt avg (Fin 0)) l).
Proof.
  apply List.Forall_forall. intros a Ha.
  apply filter_In in Ha as [_ Ha]. now apply js_gt_0_finOrPInf.
Qed.

Lemma specMeanOrZero_not_NaN (l : list number) :
  is_NaN (specMeanOrZero l) = false.
Proof.
  unfold specMeanOrZero. destruct l; [reflexivity |].
  now destruct (finiteValues _).
Qed.

(** ** Annual results *)

Lemma termAverageOf_or0 (results : list TermResult.t) (student : Student.t) :
  termAverageOf results student
  = js_or0 (averageByName results (Student.name student)).
Proof.
  unfold termAverageOf, averageByName.
  now destruct (find _ results).
Qed.

Lemma termAverageOf_spec (results : list TermResult.t) (student : Student.t) :
  noNaNAverage results ->
  termAverageOf results student = averageByName results (Student.name student).
Proof.
  intros H. rewrite termAverageOf_or0. unfold averageByName.
  destruct (find _ results) as [r |] eqn:E; [| reflexivity].
  apply find_some in E as [Hr _].
  unfold noNaNAverage in H. rewrite List.Forall_forall in H.
  specialize (H r Hr). now destruct (TermResult.average r).
Qed.

Lemma annualRow_finalAverage (first second third : list TermResult.t)
    (student : Student.t) :
  AnnualResult.finalAverage (annualRow first second third student)
  = specMeanOrZero
      (validTermsOf (termAverageOf first student)
                    (termAverageOf second student)
                    (termAverageOf third student)).
Proof.
  cbn [annualRow AnnualResult.finalAverage].
  apply meanOrZero_spec, filter_gt_0_finOrPInf.
Qed.

Lemma annualRow_spec (first second third : list TermResult.t)
    (student : Student.t) :
  noNaNAverage first -> noNaNAverage second -> noNaNAverage third ->
  annualRow first second third student
  = specAnnualRow first second third student.
Proof.
  intros H1 H2 H3. unfold annualRow, specAnnualRow, validTermsOf.
  rewrite !termAverageOf_spec by assumption.
  f_equal. apply meanOrZero_spec, filter_gt_0_finOrPInf.
Qed.

Lemma annualRows_not_NaN sts (first second third : list TermResult.t) :
  Forall (fun r => is_NaN (AnnualResult.finalAverage r) = false)
         (annualRows sts first second third).
Proof.
  apply Forall_map_intro. intros s _.
  rewrite annualRow_finalAverage. apply specMeanOrZero_not_NaN.
Qed.

Lemma annualRanked_stably sts (first second third : list TermResult.t) :
  RankedStably AnnualResult.finalAverage unrankAnnual AnnualResult.rank
               (annualRows sts first second third)
               (annualRanked sts first second third).
Proof.
  apply (ranked_stably AnnualResult.finalAverage withAnnualRank).
  - intros i a Ha. apply in_map_iff in Ha as [s [<- _]]. reflexivity.
  - reflexivity.
  - apply annualRows_not_NaN.
Qed.



(** C4.  For every student list and three term result sets (none of their
    averages being [NaN], which no term average is), the annual row of each
    student holds the three term averages read from the first row carrying
    the student's display name, 0 when no row carries it; [validTerms] are
    those of the three that are strictly positive, and [finalAverage] is
    their arithmetic mean, or 0 when there are none. *)
Theorem C4_annual_rows (sts : list Student.t)
    (first second third : list TermResult.t) :
  noNaNAverage first -> noNaNAverage second -> noNaNAverage third ->
  annualRows sts first second third
  = map (specAnnualRow first second third) sts
  /\ Permutation
       (map unrankAnnual (annualRanked sts first second third))
       (map (specAnnualRow first second third) sts).
Proof.
  intros H1 H2 H3.
  assert (E : annualRows sts first second third
              = map (specAnnualRow first second third) sts).
  { unfold annualRows. apply map_ext. intros s. now apply annualRow_spec. }
  split; [exact E |].
  rewrite <- E. apply annualRanked_stably.
Qed.

Lemma C4_annual_rows_witness :
  annualRows [studentD] [termRowD 14] [] [termRowD 16]
  = map (specAnnualRow [termRowD 14] [] [termRowD 16]) [studentD]
  /\ Permutation
       (map unrankAnnual
            (annualRanked [studentD] [termRowD 14] [] [termRowD 16]))
       (map (specAnnualRow [termRowD 14] [] [termRowD 16]) [studentD]).
Proof.
  apply C4_annual_rows; repeat constructor.
Defined.

(** ** Statistics *)

Lemma finiteValues_map_Fin (qs : list Q) : finiteValues (map Fin qs) = Some qs.
Proof.
  induction qs as [| q qs IH]; [reflexivity |]. simpl. now rewrite IH.
Qed.

Lemma finOrPInf_map_Fin (qs : list Q) : Forall finOrPInf (map Fin qs).
Proof.
  apply Forall_map_intro. intros q _. exact I.
Qed.

Lemma sumAverages_map_Fin (qs : list Q) :
  sumAverages (map Fin qs) = Fin (sumQ qs).
Proof.
  unfold sumAverages. rewrite fold_js_add_Fin by apply finOrPInf_map_Fin.
  now rewrite finiteValues_map_Fin.
Qed.

Lemma countPassing_map_Fin (qs : list Q) :
  countPassing (map Fin qs) = passCountQ qs.
Proof.
  unfold countPassing, passCountQ.
  induction qs as [| q qs IH]; [reflexivity |].
  cbn [map List.filter]. change (js_ge (Fin q) PASSING_MARK) with (Qle_bool 10 q).
  destruct (Qle_bool 10 q); simpl; now rewrite IH.
Qed.

Lemma sequenceRows_averages (st : AppState) :
  map SeqRow.average (sequenceRows st)
  = map Fin (map (sequenceAverageQ st) (students st)).
Proof. rewrite sequenceRows_spec, !map_map. reflexivity. Qed.

Lemma sequenceClassAvg_spec (st : AppState) :
  sequenceClassAvg st
  = if (length (students st) =? 0)%nat then Fin 0
    else Fin (meanQ (map (sequenceAverageQ st) (students st))).
Proof.
  unfold sequenceClassAvg, js_length, meanQ.
  rewrite sequenceRows_averages, sumAverages_map_Fin.
  unfold sequenceRows. rewrite !length_map.
  destruct (students st) as [| s l]; [reflexivity |].
  rewrite js_div_pos by (apply inject_nat_pos; simpl; lia).
  reflexivity.
Qed.

Lemma percentage_eq (c n : nat) :
  (0 < n)%nat ->
  js_mul (js_div (Fin (natQ c)) (Fin (natQ n))) (Fin 100)
  = Fin (natQ c / natQ n * 100).
Proof.
  intros H. rewrite js_div_pos by now apply inject_nat_pos. reflexivity.
Qed.

Lemma sequencePassPerc_spec (st : AppState) :
  sequencePassPerc st
  = if (length (students st) =? 0)%nat then Fin 0
    else Fin (natQ (passCountQ (map (sequenceAverageQ st) (students st)))
              / natQ (length (students st)) * 100).
Proof.
  unfold sequencePassPerc, js_length.
  rewrite sequenceRows_averages, countPassing_map_Fin.
  unfold sequenceRows. rewrite !length_map.
  destruct (students st) as [| s l]; [reflexivity |].
  replace (0 <? length (s :: l))%nat with true by reflexivity.
  apply percentage_eq. simpl. lia.
Qed.


Lemma calculateStats_spec (results : list TermResult.t + list AnnualResult.t) :
  let positive := statAverages results in
  calculateStats results
  = {| classAvg := specMeanOrZero positive;
       passPerc :=
         if (length positive =? 0)%nat then Fin 0
         else Fin (natQ (countPassing positive) / natQ (length positive)
                   * 100) |}.
Proof.
  cbn zeta. unfold calculateStats, statAverages.
  set (averages := match results with
                   | inl term => map TermResult.average term
                   | inr annual => map AnnualResult.finalAverage annual
                   end).
  replace (match results with
           | inl term => map TermResult.average term
           | inr annual => map AnnualResult.finalAverage annual
           end) with averages by (now destruct results).
  f_equal.
  - apply meanOrZero_spec, filter_gt_0_finOrPInf.
  - unfold js_length.
    destruct (List.filter _ averages) as [| a l] eqn:E; [reflexivity |].
    replace (0 <? length (a :: l))%nat with true by reflexivity.
    apply percentage_eq. simpl. lia.
Qed.




(** ** Bounds *)



Section Bounded.
Variable st : AppState.
Hypothesis Hst : boundedSnapshot st.






End Bounded.














(** ** The worked snapshot *)

Lemma exampleState_bounded : boundedSnapshot exampleState.
Proof.
  split; [discriminate |].
  split.
  - repeat (apply List.Forall_cons; [simpl; lra |]). apply List.Forall_nil.
  - repeat (apply List.Forall_cons;
            [repeat (apply List.Forall_cons; [intros _; simpl; lra |]);
             apply List.Forall_nil |]).
    apply List.Forall_nil.
Defined.


(** The example of the specification: A has average 17 and rank 1, B has
    average 9 and rank 2; the class average is 13 and half the class
    passes. *)
Example sequence_example :
  let st' := calculateSequenceResults exampleState in
  map (fun r => (SequenceResult.student r, SequenceResult.rank r,
                 num_eqb (SequenceResult.average r)
                         (Fin (if String.eqb (SequenceResult.student r) "A"
                               then 17 else 9))))
      (sequenceResults st')
  = [("A", 1%nat, true); ("B", 2%nat, true)]%string
  /\ option_map (num_eqb (Fin 13)) (sequenceClassAverage st') = Some true
  /\ option_map (num_eqb (Fin 50)) (sequencePassPercentage st') = Some true.
Proof. vm_compute. repeat split. Qed.

(** ** The aggregator as a function of the snapshot *)

(** C9.  The sequence aggregator leaves the snapshot (students, subjects,
    marks, selected sequence) as it is, and its ordered rows, class average
    and pass percentage are a function of the snapshot alone; so running it a
    second time gives the same rows and statistics, and the same state. *)
Theorem C9_sequence_deterministic (st : AppState) :
  snapshotOf (calculateSequenceResults st) = snapshotOf st
  /\ sequenceOutput (calculateSequenceResults st)
     = aggregateSequence (snapshotOf st)
  /\ sequenceOutput (calculateSequenceResults (calculateSequenceResults st))
     = sequenceOutput (calculateSequenceResults st)
  /\ calculateSequenceResults (calculateSequenceResults st)
     = calculateSequenceResults st.
Proof. repeat split. Qed.

(** ** Report compilation *)

Lemma existsb_eqb_elem (k : string) (l : list string) :
  existsb (String.eqb k) l = true <-> k ∈ l.
Proof.
  rewrite existsb_exists, list_elem_of_In. split.
  - intros (x & Hx & E). apply String.eqb_eq in E. now subst.
  - intros H. exists k. split; [exact H | apply String.eqb_refl].
Qed.

Lemma ownSix_empty : ownSix emptyStudentMarks.
Proof.
  unfold ownSix, emptyStudentMarks. now rewrite dom_list_to_map_L.
Qed.

Lemma ownSix_lookup sm (k : string) :
  ownSix sm -> is_Some (sm !! k) <-> isSequenceLabel k = true.
Proof.
  intros H. rewrite <- elem_of_dom, H, elem_of_list_to_set.
  symmetry. apply existsb_eqb_elem.
Qed.

Lemma ownSix_lookup_None sm (k : string) :
  ownSix sm -> isSequenceLabel k = false -> sm !! k = None.
Proof.
  intros H E. destruct (sm !! k) eqn:L; [| reflexivity].
  assert (is_Some (sm !! k)) as Hs by (rewrite L; eauto).
  apply (ownSix_lookup _ _ H) in Hs. congruence.
Qed.

Lemma assignMark_ownSix sm p k n v sm' p' :
  ownSix sm -> assignMark sm p k n v = Some (sm', p') -> ownSix sm'.
Proof.
  unfold assignMark, readStudentMarks, ownSix. intros H E.
  destruct (sm !! k) as [inner |] eqn:L.
  - destruct (String.eqb n "__proto__"); injection E as <- <-; [exact H |].
    rewrite dom_insert_L, <- H.
    apply subseteq_union_1_L, singleton_subseteq_l, elem_of_dom. eauto.
  - repeat match type of E with
           | (if ?c then _ else _) = _ => destruct c
           | match (if ?c then _ else _) with _ => _ end = _ => destruct c
           end;
      try discriminate; injection E as <- <-; exact H.
Qed.

Lemma reportStep_ownSix studentId subjs sm p m sm' p' :
  ownSix sm ->
  reportStep studentId subjs (Some (sm, p)) m = Some (sm', p') ->
  ownSix sm'.
Proof.
  unfold reportStep. intros H E.
  destruct (String.eqb _ studentId); [| now injection E as <- <-].
  destruct (find _ subjs) as [subject |]; [| now injection E as <- <-].
  eapply assignMark_ownSix; eassumption.
Qed.

Lemma fold_reportStep_None studentId subjs ms :
  fold_left (reportStep studentId subjs) ms None = None.
Proof. induction ms as [| m ms IH]; [reflexivity | exact IH]. Qed.

Lemma fold_reportStep_ownSix studentId subjs ms sm p sm' p' :
  ownSix sm ->
  fold_left (reportStep studentId subjs) ms (Some (sm, p)) = Some (sm', p') ->
  ownSix sm'.
Proof.
  revert sm p. induction ms as [| m ms IH]; intros sm p H E.
  - now injection E as <- <-.
  - cbn [fold_left] in E.
    destruct (reportStep studentId subjs (Some (sm, p)) m) as [[sm1 p1] |] eqn:S1.
    + eapply IH; [| exact E]. eapply reportStep_ownSix; eassumption.
    + now rewrite fold_reportStep_None in E.
Qed.

Lemma assignMark_undefined sm p (k n : string) v :
  ownSix sm ->
  isSequenceLabel k = false -> isInheritedKey k = false ->
  n <> "__proto__"%string ->
  assignMark sm p k n v = None.
Proof.
  intros Hsm Hk Hi Hn. unfold assignMark, readStudentMarks.
  rewrite (ownSix_lookup_None _ _ Hsm Hk).
  apply String.eqb_neq in Hn.
  destruct (p !! k); [now rewrite Hn |].
  unfold isInheritedKey, objectPrototypeKeys in Hi. cbn [existsb] in Hi.
  apply orb_false_elim in Hi as [Hc Hi].
  apply orb_false_elim in Hi as [Hp Hm].
  now rewrite Hp, Hc, Hm.
Qed.

Lemma assignMark_label sm p (k n : string) v :
  ownSix sm -> isSequenceLabel k = true ->
  exists sm', assignMark sm p k n v = Some (sm', p).
Proof.
  intros Hsm Hk. unfold assignMark, readStudentMarks.
  apply (ownSix_lookup _ _ Hsm) in Hk as [inner ->].
  destruct (String.eqb n "__proto__"); eauto.
Qed.

Lemma compile_labelled studentId subjs ms sm p :
  labelledWithin studentId ms -> ownSix sm ->
  exists sm', fold_left (reportStep studentId subjs) ms (Some (sm, p))
              = Some (sm', p).
Proof.
  revert sm. induction ms as [| m ms IH]; intros sm H Hsm; [simpl; eauto |].
  apply Forall_cons_1 in H as [Hm Hms].
  assert (exists sm1, reportStep studentId subjs (Some (sm, p)) m
                      = Some (sm1, p)) as [sm1 E].
  { unfold reportStep.
    destruct (String.eqb _ studentId) eqn:Es; [| eauto].
    apply String.eqb_eq in Es.
    destruct (find _ subjs); [| eauto].
    apply assignMark_label; auto. }
  cbn [fold_left]. rewrite E. apply IH; [exact Hms |].
  eapply reportStep_ownSix; eassumption.
Qed.

Lemma compile_unknown_label studentId subjs ms sm p m subject :
  In m ms ->
  Mark.studentId m = studentId ->
  find (fun s => String.eqb (Subject.id s) (Mark.subjectId m)) subjs
  = Some subject ->
  Subject.name subject <> "__proto__"%string ->
  isSequenceLabel (Mark.sequence m) = false ->
  isInheritedKey (Mark.sequence m) = false ->
  ownSix sm ->
  fold_left (reportStep studentId subjs) ms (Some (sm, p)) = None.
Proof.
  intros Hin Hs Hf Hn Hk Hi. revert sm p.
  induction ms as [| x ms IH]; intros sm p Hsm; [contradiction |].
  cbn [fold_left].
  destruct (reportStep studentId subjs (Some (sm, p)) x) as [[sm1 p1] |] eqn:E;
    [| apply fold_reportStep_None].
  destruct Hin as [-> | Hin].
  - unfold reportStep in E. rewrite Hs, String.eqb_refl, Hf in E.
    now rewrite assignMark_undefined in E.
  - apply IH; [exact Hin |]. eapply reportStep_ownSix; eassumption.
Qed.

(** Why the subject must not be named [__proto__] in C10 below: a first mark
    under the sequence [__proto__] defines [X] on [Object.prototype]; the
    second mark's sequence [X] then reads that number, and assigning its
    [__proto__] is ignored rather than refused. *)
Example polluted_label_no_error :
  let st := initialState exampleStudents
              [ {| Subject.id := "x"; Subject.name := "X"; Subject.total := 20 |};
                {| Subject.id := "p"; Subject.name := "__proto__";
                   Subject.total := 20 |} ]
              [ mkMark "a" "x" "__proto__" 5; mkMark "a" "p" "X" 7 ]
              "firstSequence" in
  option_map fst (compileStudentMarks "a" (subjects st) (marks st))
  = Some emptyStudentMarks.
Proof. vm_compute. reflexivity. Qed.

(** C8, as stated, fails: a mark of the student that carries a seventh label
    makes the report compiler throw. *)
Lemma C8_report_raises :
  handleGenerateStudentReport (labelledState "seventhSequence") "a" = TypeError.
Proof. vm_compute. reflexivity. Qed.

(** C10, as stated, fails: [constructor] is none of the six labels, yet a
    mark of the student carrying it (for the known subject [m]) raises no
    error; [studentMarks.constructor] is the function [Object], which takes
    the property, and the report is generated with the six nested objects
    left empty. *)
Lemma C10_inherited_label_no_error :
  let st := labelledState "constructor" in
  marks st = [mkMark "a" "m" "constructor" 15]
  /\ isSequenceLabel "constructor" = false
  /\ option_map Subject.name
       (find (fun s => String.eqb (Subject.id s) "m") (subjects st))
     = Some "Maths"%string
  /\ handleGenerateStudentReport st "a"
     = Generated
         {| report_studentName := "A";
            report_studentId := "a";
            report_studentMarks := emptyStudentMarks;
            report_subjects := exampleSubjects;
            report_comments := CommentsOf ∅;
            report_selectedSequence := "firstSequence";
            report_selectedResultView := ViewSequence;
            report_firstTermResults := [];
            report_secondTermResults := [];
            report_thirdTermResults := [];
            report_annualResults := [] |}.
Proof.
  cbn zeta. do 3 (split; [reflexivity |]). vm_compute. reflexivity.
Qed.

Lemma handle_labelled (st : AppState) (studentId : string) :
  labelledWithin studentId (marks st) ->
  handleGenerateStudentReport st studentId <> TypeError.
Proof.
  intros H. unfold handleGenerateStudentReport, compileStudentMarks.
  destruct (find _ (students st)); [| discriminate].
  destruct (compile_labelled studentId (subjects st) (marks st)
              emptyStudentMarks ∅ H ownSix_empty) as [sm' ->].
  discriminate.
Qed.

(** C8 (amended).  Every zero denominator of the aggregators gives 0: a
    sequence average when [totalPossible] is not positive, both sequence
    statistics when there is no student, a term average when no sequence is
    entered, a final average when no term average is positive, and the class
    average and pass percentage of [calculateStats] when no average is
    positive.  A student name that no term row carries reads as 0.  Report
    compilation does nothing for an unknown student id, skips a mark whose
    subject id is unknown, and raises no error when every mark of the student
    carries one of the six sequence labels. *)
Theorem C8_defaults_and_skips (st : AppState) :
  (forall student,
      possibleOf st <= 0 ->
      SeqRow.average (sequenceRow st student) = Fin 0)
  /\ (students st = [] ->
      sequenceClassAverage (calculateSequenceResults st) = Some (Fin 0)
      /\ sequencePassPercentage (calculateSequenceResults st) = Some (Fin 0))
  /\ (forall sequences student,
         snd (termTotals st sequences student) = 0%nat ->
         TermResult.average (termRow st sequences student) = Fin 0)
  /\ (forall first second third student,
         validTermsOf (termAverageOf first student)
                      (termAverageOf second student)
                      (termAverageOf third student) = [] ->
         AnnualResult.finalAverage (annualRow first second third student)
         = Fin 0)
  /\ (forall results,
         statAverages results = [] ->
         calculateStats results = {| classAvg := Fin 0; passPerc := Fin 0 |})
  /\ (forall results student,
         find (fun r => String.eqb (TermResult.student r) (Student.name student))
              results = None ->
         termAverageOf results student = Fin 0)
  /\ (forall studentId,
         find (fun s => String.eqb (Student.id s) studentId) (students st)
         = None ->
         handleGenerateStudentReport st studentId = NoStudent)
  /\ (forall studentId acc m,
         find (fun s => String.eqb (Subject.id s) (Mark.subjectId m))
              (subjects st) = None ->
         reportStep studentId (subjects st) (Some acc) m = Some acc)
  /\ (forall studentId,
         labelledWithin studentId (marks st) ->
         handleGenerateStudentReport st studentId <> TypeError).
Proof.
  repeat apply conj.
  - intros student H. rewrite sequenceRow_spec. cbn [specSequenceRow SeqRow.average].
    unfold sequenceAverageQ.
    replace (Qltb 0 (possibleOf st)) with false; [reflexivity |].
    symmetry. now apply Qltb_ge.
  - intros E. cbn [calculateSequenceResults sequenceClassAverage
                   sequencePassPercentage].
    rewrite sequenceClassAvg_spec, sequencePassPerc_spec, E. now split.
  - intros sequences student H. unfold termRow.
    destruct (termTotals st sequences student) as [[tm tp] c].
    cbn [snd] in H. now subst c.
  - intros first second third student H.
    cbn [annualRow AnnualResult.finalAverage]. now rewrite H.
  - intros results H. rewrite calculateStats_spec. cbn zeta. now rewrite H.
  - intros results student H. unfold termAverageOf. now rewrite H.
  - intros studentId H. unfold handleGenerateStudentReport. now rewrite H.
  - intros studentId [sm p] m H. unfold reportStep. rewrite H.
    now destruct (String.eqb _ studentId).
  - intros studentId. apply handle_labelled.
Qed.

Lemma C8_defaults_and_skips_witness :
  (sequenceClassAverage (calculateSequenceResults emptyState) = Some (Fin 0)
   /\ sequencePassPercentage (calculateSequenceResults emptyState)
      = Some (Fin 0))
  /\ handleGenerateStudentReport emptyState "a" = NoStudent
  /\ handleGenerateStudentReport exampleState "a" <> TypeError.
Proof.
  split; [| split].
  - apply (C8_defaults_and_skips emptyState). reflexivity.
  - apply (C8_defaults_and_skips emptyState). reflexivity.
  - apply (C8_defaults_and_skips exampleState).
    repeat (apply List.Forall_cons; [intros _; reflexivity |]).
    apply List.Forall_nil.
Defined.

(** C10 (amended).  Report compilation raises no error when every mark of the
    selected student carries one of the six sequence labels.  It throws when
    the selected student exists and one of the student's marks, for a known
    subject not named [__proto__], carries a sequence that is neither one of
    the six labels nor a property name inherited from [Object.prototype]:
    the nested object read under such a sequence is [undefined] (or, once an
    earlier [__proto__] mark has defined that name on the prototype, a
    primitive), and the write through it raises. *)
Theorem C10_report_labels (st : AppState) (studentId : string) :
  (labelledWithin studentId (marks st) ->
   handleGenerateStudentReport st studentId <> TypeError)
  /\ (forall student m subject,
         find (fun s => String.eqb (Student.id s) studentId) (students st)
         = Some student ->
         In m (marks st) ->
         Mark.studentId m = studentId ->
         find (fun s => String.eqb (Subject.id s) (Mark.subjectId m))
              (subjects st) = Some subject ->
         Subject.name subject <> "__proto__"%string ->
         isSequenceLabel (Mark.sequence m) = false ->
         isInheritedKey (Mark.sequence m) = false ->
         handleGenerateStudentReport st studentId = TypeError).
Proof.
  split; [apply handle_labelled |].
  intros student m subject Hst Hin Hs Hf Hn Hk Hi.
  unfold handleGenerateStudentReport, compileStudentMarks. rewrite Hst.
  now rewrite (compile_unknown_label studentId (subjects st) (marks st)
                 emptyStudentMarks ∅ m subject Hin Hs Hf Hn Hk Hi ownSix_empty).
Qed.

Lemma C10_report_labels_witness :
  handleGenerateStudentReport exampleState "a" <> TypeError
  /\ handleGenerateStudentReport (labelledState "seventhSequence") "a"
     = TypeError.
Proof.
  split.
  - apply (C10_report_labels exampleState "a").
    repeat (apply List.Forall_cons; [intros _; reflexivity |]).
    apply List.Forall_nil.
  - apply (proj2 (C10_report_labels (labelledState "seventhSequence") "a")
             {| Student.id := "a"; Student.name := "A" |}
             (mkMark "a" "m" "seventhSequence" 15)
             {| Subject.id := "m"; Subject.name := "Maths";
                Subject.total := 20 |}).
    + reflexivity.
    + left. reflexivity.
    + reflexivity.
    + reflexivity.
    + discriminate.
    + reflexivity.
    + reflexivity.
Defined.

(** ** Further examples of the specification *)

(** The "entered" rule: C has 16 + 14 = 30 out of 40 in the first sequence
    and two zeros in the second; the term average is 30 / 40 * 20 = 15, the
    second sequence adding to neither side. *)
Example term_entered_example :
  let st := initialState [ {| Student.id := "c"; Student.name := "C" |} ]
              exampleSubjects
              [ mkMark "c" "m" "firstSequence" 16;
                mkMark "c" "e" "firstSequence" 14;
                mkMark "c" "m" "secondSequence" 0;
                mkMark "c" "e" "secondSequence" 0 ]
              "firstSequence" in
  map (fun r => (TermResult.student r, TermResult.rank r,
                 num_eqb (TermResult.average r) (Fin 15)))
      (firstTermResults (calculateTermResults st))
  = [("C"%string, 1%nat, true)].
Proof. vm_compute. reflexivity. Qed.

(** Term averages 14, 0 and 16 give the final average 15. *)
Example annual_example :
  num_eqb (AnnualResult.finalAverage
             (annualRow [termRowD 14] [termRowD 0] [termRowD 16] studentD))
          (Fin 15)
  = true.
Proof. vm_compute. reflexivity. Qed.

(** A subject whose total was set to 0 after a mark of 15 was stored: the
    first sequence is entered, [totalPossible] is 0, and the term average is
    15 / 0 * 20, which is [Infinity]. *)
Example term_average_infinite :
  let st := initialState
              [ {| Student.id := "a"; Student.name := "A" |} ]
              [ {| Subject.id := "m"; Subject.name := "Maths";
                   Subject.total := 0 |} ]
              [ mkMark "a" "m" "firstSequence" 15 ]
              "firstSequence" in
  map TermResult.average (firstTermResults (calculateTermResults st)) = [PInf].
Proof. vm_compute. reflexivity. Qed.

(** * Further properties: the handlers *)

(** ** Searching lists *)

Lemma find_map_preserving {X : Type} (p : X -> bool) (f : X -> X) (l : list X) :
  (forall x, p (f x) = p x) ->
  find p (map f l) = option_map f (find p l).
Proof.
  intros H. induction l as [| x l IH]; [reflexivity |].
  cbn [map find]. rewrite H. now destruct (p x).
Qed.

Lemma find_app_or {X : Type} (p : X -> bool) (l l' : list X) :
  find p (l ++ l')
  = match find p l with
    | Some x => Some x
    | None => find p l'
    end.
Proof.
  induction l as [| x l IH]; [reflexivity |].
  cbn [app find]. now destruct (p x).
Qed.

Lemma find_filter_implied {X : Type} (p q : X -> bool) (l : list X) :
  (forall x, p x = true -> q x = true) ->
  find p (List.filter q l) = find p l.
Proof.
  intros H. induction l as [| x l IH]; [reflexivity |].
  cbn [List.filter find]. destruct (p x) eqn:Px.
  - rewrite (H x Px). cbn [find]. now rewrite Px.
  - destruct (q x); [cbn [find]; now rewrite Px | exact IH].
Qed.

Lemma NoDup_map_eq {X Y : Type} (f : X -> Y) (l : list X) (x y : X) :
  List.NoDup (map f l) -> In x l -> In y l -> f x = f y -> x = y.
Proof.
  induction l as [| a l IH]; intros Hnd Hx Hy E; [contradiction |].
  cbn [map] in Hnd. apply List.NoDup_cons_iff in Hnd as [Ha Hnd].
  destruct Hx as [-> | Hx], Hy as [-> | Hy].
  - reflexivity.
  - exfalso. apply Ha. rewrite E. now apply in_map.
  - exfalso. apply Ha. rewrite <- E. now apply in_map.
  - now apply IH.
Qed.

Lemma NoDup_app_cons_nil {X : Type} (l : list X) (x : X) :
  List.NoDup l -> ~ In x l -> List.NoDup (l ++ [x]).
Proof.
  intros Hl Hx. induction l as [| a l IH]; cbn [app].
  - apply List.NoDup_cons; [exact Hx | apply List.NoDup_nil].
  - apply List.NoDup_cons_iff in Hl as [Ha Hl]. apply List.NoDup_cons.
    + intros Hin. apply in_app_or in Hin as [Hin | [<- | []]]; [now apply Ha |].
      apply Hx. now left.
    + apply IH; [exact Hl |]. intros Hin. apply Hx. now right.
Qed.

(** ** Entering a mark *)

Lemma acceptedMark_cases (mark : markInput) (maxTotal : Q) (v : markval) :
  acceptedMark mark maxTotal = Some v ->
  (mark = EmptyText /\ v = MEmpty)
  \/ exists q, mark = Text (Fin q) /\ v = MNum q /\ 0 <= q <= maxTotal.
Proof.
  destruct mark as [| n]; cbn [acceptedMark].
  - intros E. left. now injection E as <-.
  - destruct n as [q | | |]; cbn [is_NaN negb andb js_ge]; try discriminate.
    destruct (Qle_bool 0 q) eqn:H0; [| discriminate].
    destruct (Qle_bool q maxTotal) eqn:H1; [| discriminate].
    cbn [andb]. intros E. injection E as <-. right. exists q.
    apply Qle_bool_iff in H0, H1. auto.
Qed.


(** The marks a successful [handleMarkChange] leaves. *)
Lemma afterMarkChange_marks (st : AppState) docId studentId subjectId
    mark maxTotal v :
  acceptedMark mark maxTotal = Some v ->
  marks (afterMarkChange st docId studentId subjectId mark maxTotal)
  = match findMarkOf (marks st) studentId subjectId (selectedSequence st) with
    | Some existingMark =>
        map (fun m => if String.eqb (Mark.id m) (Mark.id existingMark)
                      then withMarks v m else m)
            (marks st)
    | None =>
        match v with
        | MEmpty => marks st
        | MNum _ =>
            marks st ++ [ {| Mark.id := docId;
                             Mark.studentId := studentId;
                             Mark.subjectId := subjectId;
                             Mark.sequence := selectedSequence st;
                             Mark.marks := v |} ]
        end
    end.
Proof.
  intros H. unfold afterMarkChange, handleMarkChange. rewrite H.
  destruct (findMarkOf _ _ _ _); [reflexivity |].
  now destruct v.
Qed.

Lemma handleMarkChange_marks_cases (t : string -> string) user reply
    (st : AppState) studentId subjectId mark maxTotal :
  marks (fst (handleMarkChange t user reply st studentId subjectId mark maxTotal))
  = marks st
  \/ exists docId v,
       acceptedMark mark maxTotal = Some v
       /\ marks (fst (handleMarkChange t user reply st
                                       studentId subjectId mark maxTotal))
          = marks (afterMarkChange st docId studentId subjectId mark maxTotal).
Proof.
  unfold afterMarkChange, handleMarkChange.
  destruct (acceptedMark mark maxTotal) as [v |]; [| now left].
  destruct user; [| now left].
  destruct (findMarkOf _ _ _ _).
  - destruct reply as [docId | msg]; [| now left].
    right. exists docId, v. now split.
  - destruct v; [| now left].
    destruct reply as [docId | msg]; [| now left].
    right. exists docId, (MNum q). now split.
Qed.

Lemma handleMarkChange_rest (t : string -> string) user reply
    (st : AppState) studentId subjectId mark maxTotal :
  let st' := fst (handleMarkChange t user reply st
                                   studentId subjectId mark maxTotal) in
  students st' = students st
  /\ subjects st' = subjects st
  /\ selectedSequence st' = selectedSequence st
  /\ studentComments st' = studentComments st.
Proof.
  cbn zeta. unfold handleMarkChange.
  destruct (acceptedMark mark maxTotal) as [v |]; [| now repeat split].
  destruct user; [| now repeat split].
  destruct (findMarkOf _ _ _ _).
  - now destruct reply.
  - destruct v; [| now repeat split]. now destruct reply.
Qed.

Lemma cell_key_preserved (existingMark : Mark.t) (v : markval) (m : Mark.t) :
  markKey (if String.eqb (Mark.id m) (Mark.id existingMark)
           then withMarks v m else m)
  = markKey m.
Proof. now destruct (String.eqb _ _). Qed.

Lemma key_eqb (m : Mark.t) (a b c : string) :
  String.eqb (Mark.studentId m) a && String.eqb (Mark.subjectId m) b
  && String.eqb (Mark.sequence m) c = true
  <-> markKey m = (a, b, c).
Proof.
  unfold markKey. rewrite !andb_true_iff, !String.eqb_eq. split.
  - intros [[-> ->] ->]. reflexivity.
  - intros E. injection E as -> -> ->. auto.
Qed.

(** X1.  A text that reads as no number, as an infinity, as a negative
    number or as a number above [maxTotal] is dropped: whoever is signed in
    and whatever the store would answer, the state stays as it is and no
    error message is set. *)
Theorem markChange_rejects (t : string -> string) (user : option string)
    (reply : StoreReply) (st : AppState) (studentId subjectId : string)
    (value : number) (maxTotal : Q) :
  (forall q, value = Fin q -> ~ (0 <= q <= maxTotal)) ->
  handleMarkChange t user reply st studentId subjectId (Text value) maxTotal
  = (st, None).
Proof.
  intros H. unfold handleMarkChange.
  destruct (acceptedMark (Text value) maxTotal) as [v |] eqn:E; [| reflexivity].
  apply acceptedMark_cases in E as [[E _] | (q & E & _ & Hq)]; [discriminate |].
  injection E as ->. now destruct (H q eq_refl).
Qed.

Lemma markChange_rejects_witness :
  handleMarkChange (fun key => key) (Some "uid"%string) (Stored "x")
                   exampleState "a" "m" (Text (Fin 21)) 20
  = (exampleState, None).
Proof.
  apply markChange_rejects. intros q E. injection E as <-.
  intros [_ H]. revert H. apply Qlt_not_le. reflexivity.
Defined.

Lemma handleMarkChange_stored (t : string -> string) (uid docId : string)
    (st : AppState) studentId subjectId mark maxTotal :
  handleMarkChange t (Some uid) (Stored docId) st
                   studentId subjectId mark maxTotal
  = (afterMarkChange st docId studentId subjectId mark maxTotal, None).
Proof.
  unfold afterMarkChange, handleMarkChange.
  destruct (acceptedMark mark maxTotal) as [v |]; [| reflexivity].
  destruct (findMarkOf _ _ _ _); [reflexivity |]. now destruct v.
Qed.

Lemma afterMarkChange_read (st : AppState) (docId : string)
    (student : Student.t) (subject : Subject.t)
    (mark : markInput) (maxTotal : Q) (v : markval) :
  acceptedMark mark maxTotal = Some v ->
  markValue (afterMarkChange st docId (Student.id student) (Subject.id subject)
                             mark maxTotal)
            student (selectedSequence st) subject
  = Number v.
Proof.
  intros H. unfold markValue, findMark.
  rewrite (afterMarkChange_marks _ _ _ _ _ _ _ H). unfold findMarkOf.
  set (p := fun m : Mark.t =>
              String.eqb (Mark.studentId m) (Student.id student)
              && String.eqb (Mark.subjectId m) (Subject.id subject)
              && String.eqb (Mark.sequence m) (selectedSequence st)).
  destruct (find p (marks st)) as [existingMark |] eqn:E.
  - rewrite find_map_preserving, E.
    + cbn [option_map]. now rewrite String.eqb_refl.
    + intros m. now destruct (String.eqb (Mark.id m) (Mark.id existingMark)).
  - destruct v as [q |].
    + rewrite find_app_or, E. cbn [find]. unfold p. cbn.
      now rewrite !String.eqb_refl.
    + now rewrite E.
Qed.

(** X2.  Once the handler has accepted a cell's text and the store has
    answered, the aggregators read that value for the student, the subject
    and the selected sequence: the number entered, and 0 after the cell was
    emptied. *)
Theorem markChange_then_read (t : string -> string) (uid docId : string)
    (st : AppState) (student : Student.t) (subject : Subject.t)
    (mark : markInput) (maxTotal : Q) (v : markval) :
  acceptedMark mark maxTotal = Some v ->
  markValue (fst (handleMarkChange t (Some uid) (Stored docId) st
                    (Student.id student) (Subject.id subject) mark maxTotal))
            student (selectedSequence st) subject
  = Number v.
Proof.
  intros H. rewrite handleMarkChange_stored. cbn [fst].
  now apply afterMarkChange_read.
Qed.

Lemma markChange_then_read_witness :
  markValue (fst (handleMarkChange (fun key => key) (Some "uid"%string)
                    (Stored "new") exampleState "a" "m" (Text (Fin 12)) 20))
            {| Student.id := "a"; Student.name := "A" |} "firstSequence"
            {| Subject.id := "m"; Subject.name := "Maths"; Subject.total := 20 |}
  = 12.
Proof.
  apply (markChange_then_read (fun key => key) "uid" "new" exampleState
           {| Student.id := "a"; Student.name := "A" |}
           {| Subject.id := "m"; Subject.name := "Maths"; Subject.total := 20 |}
           (Text (Fin 12)) 20 (MNum 12)).
  reflexivity.
Defined.

Lemma find_none_key (ms : list Mark.t) (a b c : string) :
  findMarkOf ms a b c = None -> ~ In (a, b, c) (map markKey ms).
Proof.
  intros H Hin. apply in_map_iff in Hin as (m & E & Hm).
  apply (find_none _ _ H) in Hm. apply key_eqb in E. congruence.
Qed.

(** X3.  [handleMarkChange] writes a cell in place or adds it: when no two
    marks share their (student, subject, sequence), none do afterwards,
    whatever the arguments and the answer of the store. *)
Theorem markChange_keeps_cells_unique (t : string -> string)
    (user : option string) (reply : StoreReply) (st : AppState)
    (studentId subjectId : string) (mark : markInput) (maxTotal : Q) :
  List.NoDup (map markKey (marks st)) ->
  List.NoDup
    (map markKey
         (marks (fst (handleMarkChange t user reply st
                                       studentId subjectId mark maxTotal)))).
Proof.
  intros Hnd.
  destruct (handleMarkChange_marks_cases t user reply st
              studentId subjectId mark maxTotal) as [-> | (docId & v & Hv & ->)];
    [exact Hnd |].
  rewrite (afterMarkChange_marks _ _ _ _ _ _ _ Hv).
  destruct (findMarkOf _ _ _ _) as [existingMark |] eqn:E.
  - rewrite map_map.
    erewrite map_ext; [exact Hnd |]. intros m. apply cell_key_preserved.
  - destruct v; [| exact Hnd].
    rewrite map_app. cbn [map]. apply NoDup_app_cons_nil; [exact Hnd |].
    now apply find_none_key.
Qed.

Lemma markChange_keeps_cells_unique_witness :
  List.NoDup
    (map markKey
         (marks (fst (handleMarkChange (fun key => key) (Some "uid"%string)
                        (Stored "new") exampleState
                        "a" "m" (Text (Fin 12)) 20)))).
Proof.
  apply markChange_keeps_cells_unique.
  repeat (apply List.NoDup_cons; [cbn; intuition discriminate |]).
  apply List.NoDup_nil.
Defined.

(** X4.  The document ids of the marks stay distinct, provided the id the
    store gives to a new document is not that of a mark already listed. *)
Theorem markChange_keeps_ids_unique (t : string -> string)
    (user : option string) (reply : StoreReply) (st : AppState)
    (studentId subjectId : string) (mark : markInput) (maxTotal : Q) :
  List.NoDup (map Mark.id (marks st)) ->
  (forall docId, reply = Stored docId -> ~ In docId (map Mark.id (marks st))) ->
  List.NoDup
    (map Mark.id
         (marks (fst (handleMarkChange t user reply st
                                       studentId subjectId mark maxTotal)))).
Proof.
  intros Hnd Hfresh. unfold handleMarkChange.
  destruct (acceptedMark mark maxTotal) as [v |]; [| exact Hnd].
  destruct user; [| exact Hnd].
  destruct (findMarkOf _ _ _ _) as [existingMark |].
  - destruct reply; [| exact Hnd]. cbn [fst setMarks marks].
    rewrite map_map. erewrite map_ext; [exact Hnd |].
    intros m. now destruct (String.eqb _ _).
  - destruct v; [| exact Hnd].
    destruct reply as [docId | msg]; [| exact Hnd].
    cbn [fst setMarks marks]. rewrite map_app. cbn [map Mark.id].
    apply NoDup_app_cons_nil; [exact Hnd | now apply Hfresh].
Qed.

Lemma exampleMarks_ids_unique : List.NoDup (map Mark.id (marks exampleState)).
Proof.
  repeat (apply List.NoDup_cons; [cbn; intuition discriminate |]).
  apply List.NoDup_nil.
Defined.

Lemma markChange_keeps_ids_unique_witness :
  List.NoDup
    (map Mark.id
         (marks (fst (handleMarkChange (fun key => key) (Some "uid"%string)
                        (Stored "new") exampleState
                        "a" "m" (Text (Fin 12)) 20)))).
Proof.
  apply markChange_keeps_ids_unique; [exact exampleMarks_ids_unique |].
  intros docId E. injection E as <-. cbn. intuition discriminate.
Defined.

(** X5.  With distinct document ids, a call to [handleMarkChange] for one
    cell leaves the mark found for every other (student, subject, sequence)
    as it was. *)
Theorem markChange_other_cells (t : string -> string)
    (user : option string) (reply : StoreReply) (st : AppState)
    (studentId subjectId : string) (mark : markInput) (maxTotal : Q)
    (otherStudent otherSubject otherSequence : string) :
  List.NoDup (map Mark.id (marks st)) ->
  (otherStudent, otherSubject, otherSequence)
  <> (studentId, subjectId, selectedSequence st) ->
  findMarkOf (marks (fst (handleMarkChange t user reply st
                                           studentId subjectId mark maxTotal)))
             otherStudent otherSubject otherSequence
  = findMarkOf (marks st) otherStudent otherSubject otherSequence.
Proof.
  intros Hnd Hne.
  destruct (handleMarkChange_marks_cases t user reply st
              studentId subjectId mark maxTotal) as [-> | (docId & v & Hv & ->)];
    [reflexivity |].
  rewrite (afterMarkChange_marks _ _ _ _ _ _ _ Hv).
  destruct (findMarkOf (marks st) studentId subjectId (selectedSequence st))
    as [existingMark |] eqn:E.
  - unfold findMarkOf at 1. rewrite find_map_preserving.
    + fold (findMarkOf (marks st) otherStudent otherSubject otherSequence).
      destruct (findMarkOf (marks st) otherStudent otherSubject otherSequence)
        as [m |] eqn:F; [| reflexivity].
      cbn [option_map]. f_equal.
      destruct (String.eqb (Mark.id m) (Mark.id existingMark)) eqn:I;
        [| reflexivity].
      exfalso. apply String.eqb_eq in I.
      apply find_some in E as [He Ke], F as [Hm Km].
      apply key_eqb in Ke, Km.
      assert (m = existingMark)
        by (eapply (NoDup_map_eq Mark.id); eassumption).
      subst m. congruence.
    + intros m. now destruct (String.eqb (Mark.id m) (Mark.id existingMark)).
  - destruct v; [| reflexivity].
    unfold findMarkOf at 1. rewrite find_app_or.
    fold (findMarkOf (marks st) otherStudent otherSubject otherSequence).
    destruct (findMarkOf (marks st) otherStudent otherSubject otherSequence);
      [reflexivity |].
    cbn [find Mark.studentId Mark.subjectId Mark.sequence].
    destruct (String.eqb studentId otherStudent
              && String.eqb subjectId otherSubject
              && String.eqb (selectedSequence st) otherSequence) eqn:K;
      [| reflexivity].
    exfalso. apply Hne.
    rewrite !andb_true_iff, !String.eqb_eq in K. now destruct K as [[-> ->] ->].
Qed.

Lemma markChange_other_cells_witness :
  findMarkOf (marks (fst (handleMarkChange (fun key => key) (Some "uid"%string)
                            (Stored "new") exampleState
                            "a" "m" (Text (Fin 12)) 20)))
             "b" "e" "firstSequence"
  = findMarkOf (marks exampleState) "b" "e" "firstSequence".
Proof.
  apply markChange_other_cells; [exact exampleMarks_ids_unique | discriminate].
Defined.

(** X6.  Marks entered through [handleMarkChange] stay within their bounds:
    in a bounded snapshot with distinct document ids, a call whose [maxTotal]
    does not exceed the total of the subject it names leaves the snapshot
    bounded. *)
Theorem markChange_keeps_bounds (t : string -> string)
    (user : option string) (reply : StoreReply) (st : AppState)
    (studentId subjectId : string) (mark : markInput) (maxTotal : Q) :
  boundedSnapshot st ->
  List.NoDup (map Mark.id (marks st)) ->
  (forall subj, In subj (subjects st) -> Subject.id subj = subjectId ->
                maxTotal <= Subject.total subj) ->
  boundedSnapshot (fst (handleMarkChange t user reply st
                                         studentId subjectId mark maxTotal)).
Proof.
  intros (Hne & Hpos & Hm) Hnd Hmax.
  destruct (handleMarkChange_rest t user reply st
              studentId subjectId mark maxTotal) as (_ & Es & _ & _).
  cbn zeta in Es.
  unfold boundedSnapshot. rewrite Es.
  split; [exact Hne |]. split; [exact Hpos |].
  destruct (handleMarkChange_marks_cases t user reply st
              studentId subjectId mark maxTotal) as [-> | (docId & v & Hv & ->)];
    [exact Hm |].
  assert (Hcell : forall subj, In subj (subjects st) ->
                    Subject.id subj = subjectId ->
                    0 <= Number v <= Subject.total subj).
  { intros subj Hs Hid.
    rewrite List.Forall_forall in Hpos. specialize (Hpos subj Hs).
    apply acceptedMark_cases in Hv as [[_ ->] | (q & _ & -> & Hq)].
    - simpl. lra.
    - specialize (Hmax subj Hs Hid). simpl. lra. }
  rewrite (afterMarkChange_marks _ _ _ _ _ _ _ Hv).
  destruct (findMarkOf (marks st) studentId subjectId (selectedSequence st))
    as [existingMark |] eqn:E.
  - apply Forall_map_intro. intros m Hin.
    rewrite List.Forall_forall in Hm. specialize (Hm m Hin).
    destruct (String.eqb (Mark.id m) (Mark.id existingMark)) eqn:I;
      [| exact Hm].
    apply String.eqb_eq in I. apply find_some in E as [He Ke].
    apply key_eqb in Ke.
    assert (m = existingMark)
      by (eapply (NoDup_map_eq Mark.id); eassumption).
    subst m. injection Ke as _ Ksub _.
    unfold markBounded. apply List.Forall_forall. intros subj Hs Hid.
    cbn [withMarks Mark.subjectId Mark.marks] in *.
    apply Hcell; [exact Hs | congruence].
  - destruct v as [q |]; [| exact Hm].
    apply Forall_app. split; [exact Hm |].
    apply List.Forall_cons; [| apply List.Forall_nil].
    unfold markBounded. apply List.Forall_forall. intros subj Hs Hid.
    cbn [Mark.subjectId Mark.marks] in *. apply Hcell; [exact Hs | congruence].
Qed.

Lemma markChange_keeps_bounds_witness :
  boundedSnapshot
    (fst (handleMarkChange (fun key => key) (Some "uid"%string) (Stored "new")
                           exampleState "a" "m" (Text (Fin 12)) 20)).
Proof.
  apply markChange_keeps_bounds.
  - exact exampleState_bounded.
  - exact exampleMarks_ids_unique.
  - intros subj [<- | [<- | []]] _; simpl; lra.
Defined.

(** ** References between marks, students and subjects *)

Lemma referenced_components (st st' : AppState) :
  (forall m, In m (marks st') ->
             In m (marks st)
             \/ (In (Mark.studentId m) (map Student.id (students st'))
                 /\ In (Mark.subjectId m) (map Subject.id (subjects st')))) ->
  (forall m, In m (marks st') -> In m (marks st) ->
             forall i, In i (map Student.id (students st)) ->
                       i = Mark.studentId m ->
                       In i (map Student.id (students st'))) ->
  (forall m, In m (marks st') -> In m (marks st) ->
             forall i, In i (map Subject.id (subjects st)) ->
                       i = Mark.subjectId m ->
                       In i (map Subject.id (subjects st'))) ->
  referenced st -> referenced st'.
Proof.
  unfold referenced. intros Hm Hs Hj H.
  rewrite List.Forall_forall in *. intros m Hin.
  destruct (Hm m Hin) as [Hold | Hnew]; [| exact Hnew].
  destruct (H m Hold) as [H1 H2]. split.
  - now apply (Hs m Hin Hold _ H1).
  - now apply (Hj m Hin Hold _ H2).
Qed.

Lemma map_id_edit_student (id name : string) (l : list Student.t) :
  map Student.id
      (map (fun s => if String.eqb (Student.id s) id
                     then {| Student.id := Student.id s; Student.name := name |}
                     else s) l)
  = map Student.id l.
Proof.
  rewrite map_map. apply map_ext. intros s. now destruct (String.eqb _ _).
Qed.

Lemma map_id_edit_subject (id name : string) (total : Q) (l : list Subject.t) :
  map Subject.id
      (map (fun s => if String.eqb (Subject.id s) id
                     then {| Subject.id := Subject.id s; Subject.name := name;
                             Subject.total := total |}
                     else s) l)
  = map Subject.id l.
Proof.
  rewrite map_map. apply map_ext. intros s. now destruct (String.eqb _ _).
Qed.

Lemma in_ids_filter_student (id i : string) (l : list Student.t) :
  In i (map Student.id l) -> i <> id ->
  In i (map Student.id
            (List.filter (fun s => negb (String.eqb (Student.id s) id)) l)).
Proof.
  intros Hin Hne. apply in_map_iff in Hin as (s & <- & Hs).
  apply in_map. apply filter_In. split; [exact Hs |].
  apply negb_true_iff. now apply String.eqb_neq.
Qed.

Lemma in_ids_filter_subject (id i : string) (l : list Subject.t) :
  In i (map Subject.id l) -> i <> id ->
  In i (map Subject.id
            (List.filter (fun s => negb (String.eqb (Subject.id s) id)) l)).
Proof.
  intros Hin Hne. apply in_map_iff in Hin as (s & <- & Hs).
  apply in_map. apply filter_In. split; [exact Hs |].
  apply negb_true_iff. now apply String.eqb_neq.
Qed.

Lemma onMarkChange_marks (t : string -> string) user reply (st : AppState)
    studentIndex subject mark maxTotal m :
  let st' := fst (onMarkChange t user reply st
                               studentIndex subject mark maxTotal) in
  In m (marks st') ->
  (exists m0, In m0 (marks st) /\ markKey m = markKey m0)
  \/ (In (Mark.studentId m) (map Student.id (students st))
      /\ In (Mark.subjectId m) (map Subject.id (subjects st))).
Proof.
  cbn zeta. unfold onMarkChange.
  destruct (students st !! studentIndex) as [student |] eqn:Ei;
    [| intros H; left; now exists m].
  destruct (find _ (subjects st)) as [subjectObj |] eqn:Ej;
    [| intros H; left; now exists m].
  destruct (handleMarkChange_marks_cases t user reply st
              (Student.id student) (Subject.id subjectObj) mark maxTotal)
    as [-> | (docId & v & Hv & ->)]; [intros H; left; now exists m |].
  rewrite (afterMarkChange_marks _ _ _ _ _ _ _ Hv).
  destruct (findMarkOf _ _ _ _) as [existingMark |].
  - intros H. apply in_map_iff in H as (m0 & <- & H0). left. exists m0.
    split; [exact H0 | apply cell_key_preserved].
  - destruct v; [| intros H; left; now exists m].
    intros H. apply in_app_or in H as [H | [<- | []]]; [left; now exists m |].
    right. cbn [Mark.studentId Mark.subjectId]. split.
    + apply in_map. apply list_elem_of_In. eapply list_elem_of_lookup_2, Ei.
    + apply in_map. now apply find_some in Ej as [Hj _].
Qed.

Lemma onMarkChange_rest (t : string -> string) user reply (st : AppState)
    studentIndex subject mark maxTotal :
  let st' := fst (onMarkChange t user reply st
                               studentIndex subject mark maxTotal) in
  students st' = students st /\ subjects st' = subjects st.
Proof.
  cbn zeta. unfold onMarkChange.
  destruct (students st !! studentIndex) as [student |]; [| now split].
  destruct (find _ (subjects st)) as [subjectObj |]; [| now split].
  destruct (handleMarkChange_rest t user reply st
              (Student.id student) (Subject.id subjectObj) mark maxTotal)
    as (H1 & H2 & _).
  now split.
Qed.

(** X7.  No handler leaves a mark without its student or its subject: when
    every mark refers to a listed student and a listed subject, this still
    holds after adding, renaming or deleting a student or a subject (deleting
    takes the marks along), after a mark entered through the table's
    callback, after a comment and after a reset. *)
Theorem handlers_keep_references (t : string -> string)
    (user : option string) (reply : StoreReply) (st : AppState)
    (id name subject sequence comment : string) (total maxTotal : Q)
    (studentIndex : nat) (mark : markInput) (confirmed : bool) :
  referenced st ->
  referenced (fst (handleAddStudent t user reply st name))
  /\ referenced (fst (handleEditStudent t user reply st id name))
  /\ referenced (fst (handleDeleteStudent t user reply st id))
  /\ referenced (fst (handleAddSubject t user reply st name total))
  /\ referenced (fst (handleEditSubject t user reply st id name total))
  /\ referenced (fst (handleDeleteSubject t user reply st id))
  /\ referenced (fst (onMarkChange t user reply st
                                   studentIndex subject mark maxTotal))
  /\ referenced (fst (handleCommentChange t user reply st id sequence comment))
  /\ referenced (fst (handleResetData t user confirmed reply st)).
Proof.
  intros H. repeat apply conj.
  - unfold handleAddStudent. destruct user; [| exact H].
    destruct reply; [| exact H]. cbn [fst].
    revert H. apply referenced_components; cbn [setStudents marks students subjects].
    + now left.
    + intros m _ _ i Hi _. rewrite map_app. apply in_or_app. now left.
    + now intros.
  - unfold handleEditStudent. destruct user; [| exact H].
    destruct reply; [| exact H]. cbn [fst].
    revert H. apply referenced_components; cbn [setStudents marks students subjects].
    + now left.
    + intros m _ _ i Hi _. now rewrite map_id_edit_student.
    + now intros.
  - unfold handleDeleteStudent. destruct user; [| exact H].
    destruct reply; [| exact H]. cbn [fst].
    revert H. apply referenced_components;
      cbn [setStudentComments setMarks setStudents marks students subjects].
    + intros m Hm. left. now apply filter_In in Hm as [Hm _].
    + intros m Hm _ i Hi ->. apply in_ids_filter_student; [exact Hi |].
      apply filter_In in Hm as [_ Hm]. apply negb_true_iff in Hm.
      now apply String.eqb_neq.
    + now intros.
  - unfold handleAddSubject. destruct user; [| exact H].
    destruct reply; [| exact H]. cbn [fst].
    revert H. apply referenced_components; cbn [setSubjects marks students subjects].
    + now left.
    + now intros.
    + intros m _ _ i Hi _. rewrite map_app. apply in_or_app. now left.
  - unfold handleEditSubject. destruct user; [| exact H].
    destruct reply; [| exact H]. cbn [fst].
    revert H. apply referenced_components; cbn [setSubjects marks students subjects].
    + now left.
    + now intros.
    + intros m _ _ i Hi _. now rewrite map_id_edit_subject.
  - unfold handleDeleteSubject. destruct user; [| exact H].
    destruct reply; [| exact H]. cbn [fst].
    revert H. apply referenced_components;
      cbn [setMarks setSubjects marks students subjects].
    + intros m Hm. left. now apply filter_In in Hm as [Hm _].
    + now intros.
    + intros m Hm _ i Hi ->. apply in_ids_filter_subject; [exact Hi |].
      apply filter_In in Hm as [_ Hm]. apply negb_true_iff in Hm.
      now apply String.eqb_neq.
  - unfold referenced in *. rewrite List.Forall_forall in *. intros m Hm.
    destruct (onMarkChange_rest t user reply st studentIndex subject mark maxTotal)
      as [-> ->].
    apply onMarkChange_marks in Hm as [(m0 & H0 & K) | Hnew]; [| exact Hnew].
    injection K as -> -> _. now apply H.
  - unfold handleCommentChange. destruct user; [| exact H].
    now destruct reply.
  - unfold handleResetData. destruct user; [| exact H].
    destruct confirmed; [| exact H]. destruct reply; [| exact H].
    apply List.Forall_nil.
Qed.

Lemma exampleState_referenced : referenced exampleState.
Proof.
  repeat (apply List.Forall_cons; [cbn; intuition |]). apply List.Forall_nil.
Defined.

Lemma handlers_keep_references_witness :
  referenced (fst (handleDeleteStudent (fun key => key) (Some "uid"%string)
                                       (Stored "a") exampleState "a"))
  /\ referenced (fst (handleDeleteSubject (fun key => key) (Some "uid"%string)
                                          (Stored "m") exampleState "m")).
Proof.
  pose proof (handlers_keep_references (fun key => key) (Some "uid"%string)
                (Stored "a") exampleState "a" "A" "Maths" "firstSequence" ""
                20 20 0 EmptyText true exampleState_referenced) as H.
  pose proof (handlers_keep_references (fun key => key) (Some "uid"%string)
                (Stored "m") exampleState "m" "A" "Maths" "firstSequence" ""
                20 20 0 EmptyText true exampleState_referenced) as H'.
  split.
  - exact (proj1 (proj2 (proj2 H))).
  - exact (proj1 (proj2 (proj2 (proj2 (proj2 (proj2 H')))))).
Defined.

(** ** Rows after a change of the student list *)

(** The rows depend on the state through the sums only. *)
Lemma rows_congruence (st st' : AppState) (s s' : Student.t)
    (sequences : list string) :
  (forall sequence,
      sequenceMarksOf st' s' sequence = sequenceMarksOf st s sequence) ->
  possibleOf st' = possibleOf st ->
  selectedSequence st' = selectedSequence st ->
  (SeqRow.totalMarks (sequenceRow st' s'), SeqRow.average (sequenceRow st' s'))
  = (SeqRow.totalMarks (sequenceRow st s), SeqRow.average (sequenceRow st s))
  /\ (TermResult.totalMarks (termRow st' sequences s'),
      TermResult.average (termRow st' sequences s'))
     = (TermResult.totalMarks (termRow st sequences s),
        TermResult.average (termRow st sequences s)).
Proof.
  intros Hm Hp Hs. split.
  - rewrite !sequenceRow_spec.
    cbn [specSequenceRow SeqRow.totalMarks SeqRow.average].
    unfold sequenceAverageQ. now rewrite Hp, Hs, Hm.
  - rewrite !termRow_spec.
    cbn [specTermRow TermResult.totalMarks TermResult.average].
    assert (E : specTermTotals st' sequences s' = specTermTotals st sequences s).
    { unfold specTermTotals, enteredSequences.
      assert (F : List.filter (entered st' s') sequences
                  = List.filter (entered st s) sequences).
      { apply filter_ext. intros q. unfold entered. now rewrite Hm. }
      rewrite F, Hp. f_equal. f_equal. f_equal. apply map_ext. exact Hm. }
    unfold specTermAverage. now rewrite E.
Qed.

Lemma sequenceMarksOf_ext (st st' : AppState) (s s' : Student.t) sequence :
  subjects st' = subjects st ->
  (forall subject, findMark (marks st') s' subject sequence
                   = findMark (marks st) s subject sequence) ->
  sequenceMarksOf st' s' sequence = sequenceMarksOf st s sequence.
Proof.
  intros Hs Hf. unfold sequenceMarksOf. rewrite Hs. f_equal.
  apply map_ext. intros subject. unfold markValue. now rewrite Hf.
Qed.

(** X8.  Deleting a student removes that student's rows and nothing else:
    for every student that stays, the sequence row and the term rows the
    aggregators build are the ones they built before, and the students that
    stay are the listed ones with another id, in their order. *)
Theorem deleteStudent_keeps_other_rows (t : string -> string)
    (uid docId : string) (st : AppState) (id : string)
    (sequences : list string) :
  let st' := fst (handleDeleteStudent t (Some uid) (Stored docId) st id) in
  let staying :=
    List.filter (fun s => negb (String.eqb (Student.id s) id)) (students st) in
  sequenceRows st' = map (sequenceRow st) staying
  /\ termRows st' sequences = map (termRow st sequences) staying.
Proof.
  cbn zeta. cbn [handleDeleteStudent fst].
  unfold sequenceRows, termRows.
  cbn [setStudentComments setMarks setStudents students].
  set (st' := setStudentComments _ _).
  assert (H : forall s, In s (List.filter
                                (fun s => negb (String.eqb (Student.id s) id))
                                (students st)) ->
                sequenceRow st' s = sequenceRow st s
                /\ termRow st' sequences s = termRow st sequences s).
  { intros s Hs. apply filter_In in Hs as [_ Hs].
    apply negb_true_iff, String.eqb_neq in Hs.
    assert (Hm : forall sequence,
               sequenceMarksOf st' s sequence = sequenceMarksOf st s sequence).
    { intros sequence. apply sequenceMarksOf_ext; [reflexivity |].
      intros subject. unfold findMark. cbn [st' setStudentComments setMarks marks].
      apply find_filter_implied. intros m Hp.
      apply andb_prop in Hp as [Hp _]. apply andb_prop in Hp as [Hp _].
      apply String.eqb_eq in Hp. apply negb_true_iff, String.eqb_neq.
      congruence. }
    destruct (rows_congruence st st' s s sequences Hm eq_refl eq_refl)
      as [E1 E2].
    injection E1 as E1 E1'. injection E2 as E2 E2'. split.
    - rewrite !sequenceRow_spec in *.
      unfold specSequenceRow in *. cbn [SeqRow.totalMarks SeqRow.average] in *.
      now rewrite E1, E1'.
    - rewrite !termRow_spec in *.
      unfold specTermRow in *.
      cbn [TermResult.totalMarks TermResult.average] in *.
      now rewrite E2, E2'. }
  split; apply map_ext_in; intros s Hs; now apply H.
Qed.

(** ** Sorting commutes with a change of rows that keeps the keys *)

Lemma js_insert_map {X Y : Type} (cmp : Y -> Y -> number) (h : X -> Y)
    (x : X) (l : list X) :
  js_insert cmp (h x) (map h l)
  = map h (js_insert (fun a b => cmp (h a) (h b)) x l).
Proof.
  induction l as [| y l IH]; [reflexivity |].
  cbn [map js_insert]. destruct (js_gt (cmp (h x) (h y)) (Fin 0)).
  - cbn [map]. now rewrite IH.
  - reflexivity.
Qed.

Lemma js_sort_map {X Y : Type} (cmp : Y -> Y -> number) (h : X -> Y)
    (l : list X) :
  js_sort cmp (map h l) = map h (js_sort (fun a b => cmp (h a) (h b)) l).
Proof.
  induction l as [| x l IH]; [reflexivity |].
  cbn [map js_sort foldr].
  fold (js_sort cmp (map h l)). fold (js_sort (fun a b => cmp (h a) (h b)) l).
  rewrite IH. apply js_insert_map.
Qed.

Lemma js_sort_ext {X : Type} (cmp cmp' : X -> X -> number) (l : list X) :
  (forall a b, cmp a b = cmp' a b) -> js_sort cmp l = js_sort cmp' l.
Proof.
  intros H. induction l as [| x l IH]; [reflexivity |].
  cbn [js_sort foldr]. fold (js_sort cmp l). fold (js_sort cmp' l).
  rewrite IH. generalize (js_sort cmp' l). intros r.
  induction r as [| y r IHr]; [reflexivity |].
  cbn [js_insert]. rewrite H, IHr. reflexivity.
Qed.

Lemma map_imap_map {X Y Z W : Type} (phi : Z -> W) (w : nat -> Y -> Z)
    (h : X -> Y) (l : list X) :
  map phi (imap w (map h l)) = imap (fun i x => phi (w i (h x))) l.
Proof.
  revert w. induction l as [| x l IH]; intros w; [reflexivity |].
  cbn [map imap]. f_equal. apply IH.
Qed.

(** The figures of a ranked list depend on those of the rows only. *)
Lemma ranked_figures {X Y Z W : Type} (key : Y -> number)
    (w : nat -> Y -> Z) (phi : Z -> W) (f g : X -> Y) (l : list X) :
  (forall x, key (g x) = key (f x)) ->
  (forall i x, phi (w i (g x)) = phi (w i (f x))) ->
  map phi (imap w (js_sort (byKeyDesc key) (map g l)))
  = map phi (imap w (js_sort (byKeyDesc key) (map f l))).
Proof.
  intros Hk Hp. rewrite !js_sort_map, !map_imap_map.
  rewrite (js_sort_ext (fun a b => byKeyDesc key (g a) (g b))
                       (fun a b => byKeyDesc key (f a) (f b))).
  - apply imap_ext. intros i x _. apply Hp.
  - intros a b. unfold byKeyDesc. now rewrite !Hk.
Qed.

(** X9.  Renaming a student changes names only: the total marks, averages
    and ranks of the sequence result and of the three term results, row by
    row, are those computed before the renaming. *)
Theorem renameStudent_keeps_figures (t : string -> string)
    (uid docId : string) (st : AppState) (id name : string) :
  let st' := fst (handleEditStudent t (Some uid) (Stored docId) st id name) in
  map seqFigures (sequenceResults (calculateSequenceResults st'))
  = map seqFigures (sequenceResults (calculateSequenceResults st))
  /\ map termFigures (firstTermResults (calculateTermResults st'))
     = map termFigures (firstTermResults (calculateTermResults st))
  /\ map termFigures (secondTermResults (calculateTermResults st'))
     = map termFigures (secondTermResults (calculateTermResults st))
  /\ map termFigures (thirdTermResults (calculateTermResults st'))
     = map termFigures (thirdTermResults (calculateTermResults st)).
Proof.
  cbn zeta. cbn [handleEditStudent fst].
  set (ren := fun s : Student.t =>
                if String.eqb (Student.id s) id
                then {| Student.id := Student.id s; Student.name := name |}
                else s).
  set (st' := setStudents (map ren (students st)) st).
  assert (H : forall s sequences,
             (SeqRow.totalMarks (sequenceRow st' (ren s)),
              SeqRow.average (sequenceRow st' (ren s)))
             = (SeqRow.totalMarks (sequenceRow st s),
                SeqRow.average (sequenceRow st s))
             /\ (TermResult.totalMarks (termRow st' sequences (ren s)),
                 TermResult.average (termRow st' sequences (ren s)))
                = (TermResult.totalMarks (termRow st sequences s),
                   TermResult.average (termRow st sequences s))).
  { intros s sequences. apply rows_congruence; try reflexivity.
    intros sequence. apply sequenceMarksOf_ext; [reflexivity |].
    intros subject. unfold ren.
    now destruct (String.eqb (Student.id s) id). }
  assert (Hseq : forall s,
             SeqRow.totalMarks (sequenceRow st' (ren s))
             = SeqRow.totalMarks (sequenceRow st s)
             /\ SeqRow.average (sequenceRow st' (ren s))
                = SeqRow.average (sequenceRow st s)).
  { intros s. destruct (H s []) as [E _]. now injection E. }
  assert (Hterm : forall sequences s,
             TermResult.totalMarks (termRow st' sequences (ren s))
             = TermResult.totalMarks (termRow st sequences s)
             /\ TermResult.average (termRow st' sequences (ren s))
                = TermResult.average (termRow st sequences s)).
  { intros sequences s. destruct (H s sequences) as [_ E]. now injection E. }
  assert (HT : forall term sequences,
             map termFigures (calculateTerm st' term sequences)
             = map termFigures (calculateTerm st term sequences)).
  { intros term sequences. unfold calculateTerm, termRows.
    cbn [st' setStudents students]. rewrite map_map.
    apply (ranked_figures TermResult.average withTermRank termFigures
             (termRow st sequences)
             (fun s => termRow st' sequences (ren s))).
    - intros s. apply Hterm.
    - intros i s. unfold termFigures, withTermRank.
      cbn [TermResult.totalMarks TermResult.average TermResult.rank].
      destruct (Hterm sequences s) as [-> ->]. reflexivity. }
  split; [| now repeat split; apply HT].
  cbn [calculateSequenceResults sequenceResults].
  unfold sequenceRanked, sequenceRows.
  cbn [st' setStudents students]. rewrite map_map.
  apply (ranked_figures SeqRow.average withSeqRank seqFigures
           (sequenceRow st) (fun s => sequenceRow st' (ren s))).
  - intros s. apply Hseq.
  - intros i s. unfold seqFigures, withSeqRank.
    cbn [SequenceResult.totalMarks SequenceResult.average SequenceResult.rank].
    destruct (Hseq s) as [-> ->]. reflexivity.
Qed.

(** ** What a report holds *)








(** ** The report and the aggregators read the same marks *)











(** ** Comments *)

Lemma generated_comments (st : AppState) (studentId : string)
    (args : ReportArgs) (c : gmap string string) :
  studentComments st !! studentId = Some c ->
  handleGenerateStudentReport st studentId = Generated args ->
  report_comments args = CommentsOf c.
Proof.
  intros Hc. unfold handleGenerateStudentReport.
  destruct (find _ (students st)); [| discriminate].
  destruct (compileStudentMarks _ _ _) as [[sm p] |]; [| discriminate].
  intros G. injection G as <-. cbn [report_comments].
  unfold commentsFor. now rewrite Hc.
Qed.

(** X12.  A comment saved for a student and a label is the one the
    student's report carries under that label; the student's comments under
    other labels and the comments of other students stay as they were. *)
Theorem comment_reaches_report (t : string -> string) (uid docId : string)
    (st : AppState) (studentId sequence comment : string)
    (args : ReportArgs) :
  let st' := fst (handleCommentChange t (Some uid) (Stored docId) st
                                      studentId sequence comment) in
  handleGenerateStudentReport st' studentId = Generated args ->
  exists c,
    report_comments args = CommentsOf c
    /\ c !! sequence = Some comment
    /\ (forall label, label <> sequence ->
          c !! label = default ∅ (studentComments st !! studentId) !! label)
    /\ (forall other, other <> studentId ->
          studentComments st' !! other = studentComments st !! other).
Proof.
  cbn zeta. cbn [handleCommentChange fst]. intros G.
  exists (<[sequence := comment]> (default ∅ (studentComments st !! studentId))).
  split; [| split; [| split]].
  - apply (generated_comments _ _ _ _ (lookup_insert_eq _ _ _) G).
  - apply lookup_insert_eq.
  - intros label Hl. now apply lookup_insert_ne.
  - intros other Ho. cbn [setStudentComments studentComments].
    now apply lookup_insert_ne.
Qed.

Lemma comment_reaches_report_witness :
  let st' := fst (handleCommentChange (fun key => key) (Some "uid"%string)
                    (Stored "a") exampleState "a" "firstSequence" "Good") in
  exists c,
    report_comments exampleCommented = CommentsOf c
    /\ c !! "firstSequence"%string = Some "Good"%string
    /\ (forall label, label <> "firstSequence"%string ->
          c !! label
          = default ∅ (studentComments exampleState !! "a"%string) !! label)
    /\ (forall other, other <> "a"%string ->
          studentComments st' !! other = studentComments exampleState !! other).
Proof.
  apply (comment_reaches_report (fun key => key) "uid" "a" exampleState
           "a" "firstSequence" "Good" exampleCommented).
  vm_compute. reflexivity.
Defined.

(** ** All reports and the marks table *)

Lemma allLabelled_within (studentId : string) (ms : list Mark.t) :
  allLabelled ms -> labelledWithin studentId ms.
Proof.
  unfold allLabelled, labelledWithin. apply List.Forall_impl. auto.
Qed.

Lemma compileFrom_labelled (p : gmap string markval) studentId subjs ms :
  allLabelled ms ->
  exists sm, compileFrom p studentId subjs ms = Some (sm, p).
Proof.
  intros H. apply compile_labelled; [| exact ownSix_empty].
  now apply allLabelled_within.
Qed.

Lemma generateReportFrom_labelled (st : AppState) (studentId : string) :
  allLabelled (marks st) ->
  generateReportFrom ∅ st studentId
  = (handleGenerateStudentReport st studentId, Some ∅).
Proof.
  intros H. unfold generateReportFrom, handleGenerateStudentReport.
  destruct (find _ (students st)); [| reflexivity].
  change (compileStudentMarks studentId (subjects st) (marks st))
    with (compileFrom ∅ studentId (subjects st) (marks st)).
  destruct (compileFrom_labelled ∅ studentId (subjects st) (marks st) H)
    as [sm ->].
  reflexivity.
Qed.

Lemma allReports_fold_labelled (st : AppState) (l : list Student.t)
    (outcomes : list ReportOutcome) :
  allLabelled (marks st) ->
  fold_left (allReportsStep st) l (outcomes, Some ∅)
  = (outcomes
     ++ map (fun s => handleGenerateStudentReport st (Student.id s)) l,
     Some ∅).
Proof.
  intros H. revert outcomes.
  induction l as [| s l IH]; intros outcomes.
  - cbn. now rewrite app_nil_r.
  - cbn [fold_left allReportsStep map].
    rewrite (generateReportFrom_labelled st (Student.id s) H), IH.
    now rewrite <- app_assoc.
Qed.

Lemma find_student_listed (l : list Student.t) (s : Student.t) :
  In s l ->
  exists s0, find (fun x => String.eqb (Student.id x) (Student.id s)) l
             = Some s0.
Proof.
  intros Hin. destruct (find _ l) as [s0 |] eqn:E; [eauto |].
  apply (find_none _ _ E) in Hin. now rewrite String.eqb_refl in Hin.
Qed.

Lemma handle_labelled_generated (st : AppState) (s : Student.t) :
  allLabelled (marks st) -> In s (students st) ->
  exists args, handleGenerateStudentReport st (Student.id s) = Generated args.
Proof.
  intros H Hin. unfold handleGenerateStudentReport.
  destruct (find_student_listed _ _ Hin) as [s0 ->].
  change (compileStudentMarks (Student.id s) (subjects st) (marks st))
    with (compileFrom ∅ (Student.id s) (subjects st) (marks st)).
  destruct (compileFrom_labelled ∅ (Student.id s) (subjects st) (marks st) H)
    as [sm ->].
  eauto.
Qed.

(** X13.  When every mark carries one of the six labels, generating all
    reports generates one report per student, in the order of the student
    list, each the report that student alone would get. *)
Theorem allReports_labelled (st : AppState) :
  allLabelled (marks st) ->
  handleGenerateAllReports st
  = map (fun s => handleGenerateStudentReport st (Student.id s)) (students st)
  /\ Forall (fun outcome => exists args, outcome = Generated args)
            (handleGenerateAllReports st).
Proof.
  intros H.
  assert (E : handleGenerateAllReports st
              = map (fun s => handleGenerateStudentReport st (Student.id s))
                    (students st)).
  { unfold handleGenerateAllReports.
    now rewrite (allReports_fold_labelled st (students st) [] H). }
  split; [exact E |].
  rewrite E. apply Forall_map_intro. intros s Hs.
  now apply handle_labelled_generated.
Qed.

Lemma exampleMarks_labelled : allLabelled (marks exampleState).
Proof.
  repeat (apply List.Forall_cons; [reflexivity |]). apply List.Forall_nil.
Defined.

Lemma allReports_labelled_witness :
  handleGenerateAllReports exampleState
  = map (fun s => handleGenerateStudentReport exampleState (Student.id s))
        (students exampleState)
  /\ Forall (fun outcome => exists args, outcome = Generated args)
            (handleGenerateAllReports exampleState).
Proof. apply allReports_labelled. exact exampleMarks_labelled. Defined.

Lemma marksForTable_fold_labelled (st : AppState) (l : list Student.t)
    (rows : list (gmap string (gmap string markval))) :
  allLabelled (marks st) ->
  fold_left (marksForTableStep st) l (Some (rows, ∅))
  = Some (rows ++ map (studentMarksOf st) l, ∅).
Proof.
  intros H. revert rows.
  induction l as [| s l IH]; intros rows.
  - cbn. now rewrite app_nil_r.
  - cbn [fold_left marksForTableStep map].
    destruct (compileFrom_labelled ∅ (Student.id s) (subjects st) (marks st) H)
      as [sm E].
    assert (studentMarksOf st s = sm) as ->.
    { unfold studentMarksOf.
      change (compileStudentMarks (Student.id s) (subjects st) (marks st))
        with (compileFrom ∅ (Student.id s) (subjects st) (marks st)).
      now rewrite E. }
    rewrite E, IH, <- app_assoc. reflexivity.
Qed.

Lemma generated_studentMarks (st : AppState) (s : Student.t)
    (args : ReportArgs) :
  handleGenerateStudentReport st (Student.id s) = Generated args ->
  report_studentMarks args = studentMarksOf st s.
Proof.
  unfold handleGenerateStudentReport, studentMarksOf.
  destruct (find _ (students st)); [| discriminate].
  destruct (compileStudentMarks _ _ _) as [[sm p] |]; [| discriminate].
  intros G. now injection G as <-.
Qed.

(** X14.  When every mark carries one of the six labels, the marks table is
    built, with one nested map per student in the order of the student list,
    and the map of a student is the one that student's report holds: table
    and report show the same marks. *)
Theorem marksForTable_labelled (st : AppState) :
  allLabelled (marks st) ->
  exists table,
    marksForTable st = Some table
    /\ length table = length (students st)
    /\ forall i s args,
         students st !! i = Some s ->
         handleGenerateStudentReport st (Student.id s) = Generated args ->
         table !! i = Some (report_studentMarks args).
Proof.
  intros H. exists (map (studentMarksOf st) (students st)).
  split; [| split].
  - unfold marksForTable.
    now rewrite (marksForTable_fold_labelled st (students st) [] H).
  - apply length_map.
  - intros i s args Hi G. rewrite (generated_studentMarks _ _ _ G).
    rewrite list_lookup_fmap, Hi. reflexivity.
Qed.

Lemma marksForTable_labelled_witness :
  exists table,
    marksForTable exampleState = Some table
    /\ length table = length (students exampleState)
    /\ forall i s args,
         students exampleState !! i = Some s ->
         handleGenerateStudentReport exampleState (Student.id s)
         = Generated args ->
         table !! i = Some (report_studentMarks args).
Proof. apply marksForTable_labelled. exact exampleMarks_labelled. Defined.

(** ** A mark under an unknown label *)

Section UnknownLabel.
Variable st : AppState.
Variables (student : Student.t) (m : Mark.t) (subject : Subject.t).
Hypothesis Hstudent : In student (students st).
Hypothesis Hmark : In m (marks st).
Hypothesis Hof : Mark.studentId m = Student.id student.
Hypothesis Hsubject :
  find (fun s => String.eqb (Subject.id s) (Mark.subjectId m)) (subjects st)
  = Some subject.
Hypothesis Hname : Subject.name subject <> "__proto__"%string.
Hypothesis Hlabel : isSequenceLabel (Mark.sequence m) = false.
Hypothesis Hinherited : isInheritedKey (Mark.sequence m) = false.

Lemma compileFrom_throws (p : gmap string markval) :
  compileFrom p (Student.id student) (subjects st) (marks st) = None.
Proof.
  unfold compileFrom.
  now apply (compile_unknown_label _ _ _ _ _ m subject); try exact ownSix_empty.
Qed.

Lemma marksForTable_fold_None (l : list Student.t) :
  fold_left (marksForTableStep st) l None = None.
Proof. induction l as [| x l IH]; [reflexivity | exact IH]. Qed.

Lemma marksForTable_fold_throws (l : list Student.t) rows p :
  In student l ->
  fold_left (marksForTableStep st) l (Some (rows, p)) = None.
Proof.
  revert rows p. induction l as [| x l IH]; intros rows p Hin; [contradiction |].
  cbn [fold_left marksForTableStep].
  destruct (compileFrom p (Student.id x) (subjects st) (marks st))
    as [[sm p'] |] eqn:E; [| apply marksForTable_fold_None].
  destruct Hin as [-> | Hin]; [| now apply IH].
  now rewrite compileFrom_throws in E.
Qed.

Lemma allReports_fold_None (l : list Student.t) outcomes :
  fold_left (allReportsStep st) l (outcomes, None) = (outcomes, None).
Proof. induction l as [| x l IH]; [reflexivity | exact IH]. Qed.

Lemma allReports_fold_throws (l : list Student.t) outcomes p :
  In student l ->
  exists more,
    fold_left (allReportsStep st) l (outcomes, Some p)
    = (outcomes ++ more ++ [TypeError], None)
    /\ (length more < length l)%nat.
Proof.
  revert outcomes p.
  induction l as [| x l IH]; intros outcomes p Hin; [contradiction |].
  cbn [fold_left allReportsStep]. unfold generateReportFrom.
  destruct (find (fun s => String.eqb (Student.id s) (Student.id x))
                 (students st)) as [s0 |] eqn:F.
  - destruct (compileFrom p (Student.id x) (subjects st) (marks st))
      as [[sm p'] |] eqn:E.
    + destruct Hin as [-> | Hin];
        [now rewrite compileFrom_throws in E |].
      destruct (IH (outcomes ++ [Generated
                      {| report_studentName := Student.name s0;
                         report_studentId := Student.id x;
                         report_studentMarks := sm;
                         report_subjects := subjects st;
                         report_comments := commentsFor st p' (Student.id x);
                         report_selectedSequence := selectedSequence st;
                         report_selectedResultView := selectedResultView st;
                         report_firstTermResults := firstTermResults st;
                         report_secondTermResults := secondTermResults st;
                         report_thirdTermResults := thirdTermResults st;
                         report_annualResults := annualResults st |}])
                   p' Hin) as (more & -> & Hlen).
      eexists (_ :: more). rewrite <- app_assoc. split; [reflexivity |].
      cbn [length]. lia.
    + rewrite allReports_fold_None. exists []. split; [reflexivity |].
      cbn [length]. lia.
  - destruct Hin as [-> | Hin].
    + destruct (find_student_listed _ _ Hstudent) as [s0 E]. congruence.
    + destruct (IH (outcomes ++ [NoStudent]) p Hin) as (more & -> & Hlen).
      exists (NoStudent :: more). rewrite <- app_assoc.
      split; [reflexivity |]. cbn [length]. lia.
Qed.
End UnknownLabel.

(** X15.  One mark under an unknown label stops everything: when a listed
    student has a mark, for a known subject not named [__proto__], whose
    sequence is neither one of the six labels nor a name inherited from
    [Object.prototype], building the marks table throws, and generating all
    reports ends with a thrown error before the list of students is
    finished, so that no later student gets a report. *)
Theorem unknown_label_stops_all (st : AppState) (student : Student.t)
    (m : Mark.t) (subject : Subject.t) :
  In student (students st) ->
  In m (marks st) ->
  Mark.studentId m = Student.id student ->
  find (fun s => String.eqb (Subject.id s) (Mark.subjectId m)) (subjects st)
  = Some subject ->
  Subject.name subject <> "__proto__"%string ->
  isSequenceLabel (Mark.sequence m) = false ->
  isInheritedKey (Mark.sequence m) = false ->
  marksForTable st = None
  /\ exists outcomes,
       handleGenerateAllReports st = outcomes ++ [TypeError]
       /\ (length outcomes < length (students st))%nat.
Proof.
  intros H1 H2 H3 H4 H5 H6 H7. split.
  - unfold marksForTable.
    now rewrite (marksForTable_fold_throws st student m subject
                   H2 H3 H4 H5 H6 H7 (students st) [] ∅ H1).
  - unfold handleGenerateAllReports.
    destruct (allReports_fold_throws st student m subject
                H1 H2 H3 H4 H5 H6 H7 (students st) [] ∅ H1)
      as (more & -> & Hlen).
    exists more. now split.
Qed.

Lemma unknown_label_stops_all_witness :
  marksForTable (labelledState "seventhSequence") = None
  /\ exists outcomes,
       handleGenerateAllReports (labelledState "seventhSequence")
       = outcomes ++ [TypeError]
       /\ (length outcomes < length (students (labelledState "seventhSequence")))%nat.
Proof.
  apply (unknown_label_stops_all (labelledState "seventhSequence")
           {| Student.id := "a"; Student.name := "A" |}
           (mkMark "a" "m" "seventhSequence" 15)
           {| Subject.id := "m"; Subject.name := "Maths"; Subject.total := 20 |}).
  - left. reflexivity.
  - left. reflexivity.
  - reflexivity.
  - reflexivity.
  - discriminate.
  - reflexivity.
  - reflexivity.
Defined.

(** ** From a cell of the marks table and back *)







(** ** Results are joined by the student's name *)











(** ** A term average and the averages of its sequences *)









(** ** Pass percentages *)

Lemma natQ_le (c n : nat) : (c <= n)%nat -> natQ c <= natQ n.
Proof. intros H. unfold natQ, Qle. simpl. lia. Qed.

Lemma percentage_bounds (c n : nat) :
  (c <= n)%nat -> (0 < n)%nat -> 0 <= natQ c / natQ n * 100 <= 100.
Proof.
  intros Hc Hn.
  assert (H0 : 0 <= natQ c) by (apply (natQ_le 0 c); lia).
  assert (H1 : natQ c <= natQ n) by now apply natQ_le.
  assert (H2 : 0 < natQ n) by now apply inject_nat_pos.
  assert (0 <= natQ c / natQ n).
  { apply Qle_shift_div_l; [exact H2 | lra]. }
  assert (natQ c / natQ n <= 1).
  { apply Qle_shift_div_r; [exact H2 | lra]. }
  lra.
Qed.

Lemma sequencePassPerc_percentage (st : AppState) :
  isPercentage (sequencePassPerc st).
Proof.
  rewrite sequencePassPerc_spec.
  destruct (length (students st) =? 0)%nat eqn:E; cbn [isPercentage].
  - lra.
  - apply Nat.eqb_neq in E. apply percentage_bounds; [| lia].
    unfold passCountQ.
    etransitivity; [apply List.filter_length_le |].
    now rewrite length_map.
Qed.

Lemma calculateStats_percentage
    (results : list TermResult.t + list AnnualResult.t) :
  isPercentage (passPerc (calculateStats results)).
Proof.
  rewrite calculateStats_spec. cbn [passPerc].
  destruct (length (statAverages results) =? 0)%nat eqn:E; cbn [isPercentage].
  - lra.
  - apply Nat.eqb_neq in E. apply percentage_bounds; [| lia].
    unfold countPassing. apply List.filter_length_le.
Qed.

(** X19.  A pass percentage is a percentage: whatever the students, the
    subjects and the marks (negative or oversized marks, subjects out of 0,
    infinite averages), the pass percentage the sequence aggregator stores
    and the four that the term aggregator stores are finite numbers between
    0 and 100, and so is the one [calculateStats] returns for any result
    set. *)
Theorem pass_percentages_in_range (st : AppState)
    (results : list TermResult.t + list AnnualResult.t) :
  optPercentage (sequencePassPercentage (calculateSequenceResults st))
  /\ optPercentage (firstTermPassPercentage (calculateTermResults st))
  /\ optPercentage (secondTermPassPercentage (calculateTermResults st))
  /\ optPercentage (thirdTermPassPercentage (calculateTermResults st))
  /\ optPercentage (annualPassPercentage (calculateTermResults st))
  /\ isPercentage (passPerc (calculateStats results)).
Proof.
  repeat split; try apply calculateStats_percentage;
    apply sequencePassPerc_percentage.
Qed.

(** ** The store comes first *)

Lemma handleMarkChange_failSafe (t : string -> string) user reply st
    studentId subjectId mark maxTotal :
  failSafe st user reply
           (handleMarkChange t user reply st studentId subjectId mark maxTotal).
Proof.
  unfold failSafe, handleMarkChange.
  destruct (acceptedMark mark maxTotal) as [v |];
    [| split; [reflexivity | discriminate]].
  destruct user as [uid |]; [| split; [reflexivity | discriminate]].
  destruct (findMarkOf _ _ _ _) as [existingMark |].
  - destruct reply as [docId | message]; cbn [fst snd]; split.
    + intros [H | [message H]]; discriminate.
    + discriminate.
    + reflexivity.
    + intros e _. repeat split; [discriminate | eauto].
  - destruct v as [q |]; [| split; [reflexivity | discriminate]].
    destruct reply as [docId | message]; cbn [fst snd]; split.
    + intros [H | [message H]]; discriminate.
    + discriminate.
    + reflexivity.
    + intros e _. repeat split; [discriminate | eauto].
Qed.

(** X20.  The store comes first.  Each of the nine handlers leaves the state
    exactly as it was when no user is signed in or when the store refuses
    the call, and sets an error message only after a refusal by the store,
    never together with a change of the state: nothing is shown that the
    store has not accepted. *)
Theorem handlers_fail_safe (t : string -> string) (user : option string)
    (reply : StoreReply) (st : AppState) (id name sequence comment : string)
    (total maxTotal : Q) (studentIndex : nat) (mark : markInput)
    (confirmed : bool) :
  failSafe st user reply (handleAddStudent t user reply st name)
  /\ failSafe st user reply (handleEditStudent t user reply st id name)
  /\ failSafe st user reply (handleDeleteStudent t user reply st id)
  /\ failSafe st user reply (handleAddSubject t user reply st name total)
  /\ failSafe st user reply (handleEditSubject t user reply st id name total)
  /\ failSafe st user reply (handleDeleteSubject t user reply st id)
  /\ failSafe st user reply
              (onMarkChange t user reply st studentIndex name mark maxTotal)
  /\ failSafe st user reply
              (handleCommentChange t user reply st id sequence comment)
  /\ failSafe st user reply (handleResetData t user confirmed reply st).
Proof.
  assert (simple : forall (changed : string -> AppState) (key : string),
            failSafe st user reply
              match user with
              | None => (st, None)
              | Some _ =>
                  match reply with
                  | Stored docId => (changed docId, None)
                  | Refused message => (st, Some (errorText t key message))
                  end
              end).
  { intros changed key. unfold failSafe.
    destruct user as [uid |]; [| split; [reflexivity | discriminate]].
    destruct reply as [docId | message]; cbn [fst snd]; split.
    - intros [H | [message H]]; discriminate.
    - discriminate.
    - reflexivity.
    - intros e _. repeat split; [discriminate | eauto]. }
  split; [| split; [| split; [| split; [| split;
    [| split; [| split; [| split]]]]]]].
  - apply (simple (fun docId =>
                     setStudents (students st ++ [ {| Student.id := docId;
                                                      Student.name := name |} ])
                                 st)).
  - apply (simple (fun _ => _)).
  - apply (simple (fun _ => _)).
  - apply (simple (fun docId =>
                     setSubjects (subjects st ++ [ {| Subject.id := docId;
                                                      Subject.name := name;
                                                      Subject.total := total |} ])
                                 st)).
  - apply (simple (fun _ => _)).
  - apply (simple (fun _ => _)).
  - unfold onMarkChange.
    destruct (students st !! studentIndex) as [student |];
      [| split; [reflexivity | discriminate]].
    destruct (find _ (subjects st)) as [subjectObj |];
      [| split; [reflexivity | discriminate]].
    apply handleMarkChange_failSafe.
  - apply (simple (fun _ => _)).
  - unfold handleResetData. destruct confirmed.
    + apply (simple (fun _ => _)).
    + unfold failSafe. destruct user; split; (reflexivity || discriminate).
Qed.

(** ** Orphan marks *)

Lemma fold_left_ext_in {X Y : Type} (f g : Y -> X -> Y) (l : list X) (a : Y) :
  (forall b x, In x l -> f b x = g b x) ->
  fold_left f l a = fold_left g l a.
Proof.
  revert a. induction l as [| x l IH]; intros a H; [reflexivity |].
  cbn [fold_left]. rewrite (H a x (or_introl eq_refl)).
  apply IH. intros b y Hy. apply H. now right.
Qed.

Lemma fold_left_filter_skipped {X Y : Type} (f : Y -> X -> Y)
    (keep : X -> bool) (l : list X) (a : Y) :
  (forall b x, keep x = false -> f b x = b) ->
  fold_left f (List.filter keep l) a = fold_left f l a.
Proof.
  intros H. revert a. induction l as [| x l IH]; intros a; [reflexivity |].
  cbn [List.filter fold_left]. destruct (keep x) eqn:K.
  - cbn [fold_left]. apply IH.
  - rewrite (H a x K). apply IH.
Qed.

Lemma existsb_false_find {X : Type} (p : X -> bool) (l : list X) :
  existsb p l = false -> find p l = None.
Proof.
  induction l as [| x l IH]; [reflexivity |].
  cbn [existsb find]. destruct (p x); [discriminate | exact IH].
Qed.

Lemma existsb_listed_student (st : AppState) (s : Student.t) (id : string) :
  In s (students st) -> Student.id s = id ->
  existsb (fun x => String.eqb (Student.id x) id) (students st) = true.
Proof.
  intros Hs E. apply existsb_exists. exists s. split; [exact Hs |].
  now apply String.eqb_eq.
Qed.

Lemma findMark_withoutOrphans (st : AppState) (s : Student.t)
    (subject : Subject.t) (sequence : string) :
  In s (students st) -> In subject (subjects st) ->
  findMark (marks (withoutOrphans st)) s subject sequence
  = findMark (marks st) s subject sequence.
Proof.
  intros Hs Hsubject. unfold findMark.
  change (marks (withoutOrphans st))
    with (List.filter (isListedMark st) (marks st)).
  apply find_filter_implied. intros m Hm.
  apply andb_prop in Hm as [Hm _]. apply andb_prop in Hm as [H1 H2].
  apply String.eqb_eq in H1, H2. unfold isListedMark.
  rewrite (existsb_listed_student st s _ Hs (eq_sym H1)). cbn [andb].
  apply existsb_exists. exists subject. split; [exact Hsubject |].
  now apply String.eqb_eq.
Qed.

Lemma sumSubjects_withoutOrphans (st : AppState) (s : Student.t)
    (sequence : string) :
  In s (students st) ->
  sumSubjects (withoutOrphans st) s sequence = sumSubjects st s sequence.
Proof.
  intros Hs. unfold sumSubjects.
  change (subjects (withoutOrphans st)) with (subjects st).
  apply fold_left_ext_in. intros acc subject Hsubject.
  now rewrite findMark_withoutOrphans.
Qed.

Lemma compileFrom_withoutOrphans (st : AppState) (polluted : gmap string markval)
    (s : Student.t) :
  In s (students st) ->
  compileFrom polluted (Student.id s) (subjects (withoutOrphans st))
              (marks (withoutOrphans st))
  = compileFrom polluted (Student.id s) (subjects st) (marks st).
Proof.
  intros Hs. unfold compileFrom.
  change (subjects (withoutOrphans st)) with (subjects st).
  change (marks (withoutOrphans st))
    with (List.filter (isListedMark st) (marks st)).
  apply fold_left_filter_skipped. intros acc m Hm.
  destruct acc as [[sm p] |]; [| reflexivity]. cbn [reportStep].
  destruct (String.eqb (Mark.studentId m) (Student.id s)) eqn:E;
    [| reflexivity].
  apply String.eqb_eq in E. unfold isListedMark in Hm.
  rewrite (existsb_listed_student st s _ Hs (eq_sym E)) in Hm.
  cbn [andb] in Hm. now rewrite (existsb_false_find _ _ Hm).
Qed.

Lemma generateReportFrom_withoutOrphans (st : AppState)
    (polluted : gmap string markval) (studentId : string) :
  generateReportFrom polluted (withoutOrphans st) studentId
  = generateReportFrom polluted st studentId.
Proof.
  unfold generateReportFrom.
  change (students (withoutOrphans st)) with (students st).
  destruct (find _ (students st)) as [s |] eqn:F; [| reflexivity].
  apply find_some in F as [Hs E]. apply String.eqb_eq in E. subst studentId.
  rewrite (compileFrom_withoutOrphans st polluted s Hs).
  destruct (compileFrom _ _ _ _) as [[sm p] |]; reflexivity.
Qed.

Lemma handleGenerateStudentReport_from (st : AppState) (studentId : string) :
  handleGenerateStudentReport st studentId
  = fst (generateReportFrom ∅ st studentId).
Proof.
  unfold handleGenerateStudentReport, generateReportFrom.
  destruct (find _ (students st)) as [s |]; [| reflexivity].
  change (compileStudentMarks studentId (subjects st) (marks st))
    with (compileFrom ∅ studentId (subjects st) (marks st)).
  destruct (compileFrom _ _ _ _) as [[sm p] |]; reflexivity.
Qed.

(** X21.  Orphan marks are never read.  The marks of a student or of a
    subject that is no longer listed (the store keeps them when a student or
    a subject is deleted) change nothing: with or without them the sequence
    rows, the term rows, every report, the marks table and the run over all
    reports are the same. *)
Theorem orphans_are_never_read (st : AppState) :
  sequenceRows (withoutOrphans st) = sequenceRows st
  /\ (forall sequences,
        termRows (withoutOrphans st) sequences = termRows st sequences)
  /\ (forall studentId,
        handleGenerateStudentReport (withoutOrphans st) studentId
        = handleGenerateStudentReport st studentId)
  /\ marksForTable (withoutOrphans st) = marksForTable st
  /\ handleGenerateAllReports (withoutOrphans st)
     = handleGenerateAllReports st.
Proof.
  split; [| split; [| split; [| split]]].
  - unfold sequenceRows.
    change (students (withoutOrphans st)) with (students st).
    apply map_ext_in. intros s Hs. unfold sequenceRow.
    change (selectedSequence (withoutOrphans st)) with (selectedSequence st).
    now rewrite sumSubjects_withoutOrphans.
  - intros sequences. unfold termRows.
    change (students (withoutOrphans st)) with (students st).
    apply map_ext_in. intros s Hs. unfold termRow, termTotals.
    rewrite (fold_left_ext_in (termStep (withoutOrphans st) s)
                              (termStep st s)); [reflexivity |].
    intros acc sequence _. unfold termStep.
    now rewrite sumSubjects_withoutOrphans.
  - intros studentId.
    now rewrite !handleGenerateStudentReport_from,
      generateReportFrom_withoutOrphans.
  - unfold marksForTable. f_equal.
    change (students (withoutOrphans st)) with (students st).
    apply fold_left_ext_in. intros acc s Hs. unfold marksForTableStep.
    destruct acc as [[rows p] |]; [| reflexivity].
    now rewrite compileFrom_withoutOrphans.
  - unfold handleGenerateAllReports. f_equal.
    change (students (withoutOrphans st)) with (students st).
    apply fold_left_ext_in. intros acc s Hs. unfold allReportsStep.
    destruct acc as [outcomes [p |]]; [| reflexivity].
    now rewrite generateReportFrom_withoutOrphans.
Qed.

(** ** A new student *)

Lemma js_insert_before_last {X : Type} (cmp : X -> X -> number) (y x : X)
    (l : list X) :
  js_gt (cmp y x) (Fin 0) = false ->
  js_insert cmp y (l ++ [x]) = js_insert cmp y l ++ [x].
Proof.
  intros H. induction l as [| z l IH]; cbn [app js_insert].
  - now rewrite H.
  - destruct (js_gt (cmp y z) (Fin 0)); [| reflexivity].
    now rewrite IH.
Qed.

Lemma js_sort_keeps_last {X : Type} (cmp : X -> X -> number) (x : X)
    (l : list X) :
  (forall y, In y l -> js_gt (cmp y x) (Fin 0) = false) ->
  js_sort cmp (l ++ [x]) = js_sort cmp l ++ [x].
Proof.
  unfold js_sort. induction l as [| y l IH]; intros H; [reflexivity |].
  cbn [app foldr]. rewrite IH by (intros z Hz; apply H; now right).
  apply js_insert_before_last, H. now left.
Qed.

Lemma fold_Qplus_zeros {X : Type} (f : X -> Q) (l : list X) :
  (forall x, In x l -> f x = 0) -> fold_left Qplus (map f l) 0 = 0.
Proof.
  induction l as [| x l IH]; intros H; [reflexivity |].
  cbn [map fold_left]. rewrite (H x (or_introl eq_refl)).
  change (0 + 0) with 0. apply IH. intros y Hy. apply H. now right.
Qed.

Lemma markValue_nonneg (st : AppState) student sequence subject :
  Forall (fun m => 0 <= Number (Mark.marks m)) (marks st) ->
  0 <= markValue st student sequence subject.
Proof.
  intros H. unfold markValue.
  destruct (findMark _ _ _ _) as [m |] eqn:F; [| lra].
  apply find_some in F as [Hm _].
  rewrite List.Forall_forall in H. now apply H.
Qed.

Lemma sequenceAverageQ_nonneg (st : AppState) (student : Student.t) :
  Forall (fun m => 0 <= Number (Mark.marks m)) (marks st) ->
  0 <= sequenceAverageQ st student.
Proof.
  intros H. unfold sequenceAverageQ.
  destruct (Qltb 0 (possibleOf st)) eqn:P; [| lra].
  apply Qltb_lt in P.
  assert (Hm : 0 <= sequenceMarksOf st student (selectedSequence st)).
  { unfold sequenceMarksOf, sumQ. apply fold_Qplus_ge.
    apply Forall_map_intro. intros subject _. now apply markValue_nonneg. }
  assert (0 <= sequenceMarksOf st student (selectedSequence st) / possibleOf st).
  { apply Qle_shift_div_l; [exact P | lra]. }
  lra.
Qed.

(** X22.  A new student is ranked last.  When no stored mark is negative and
    no mark refers to the id the store gives the new student, the sequence
    result computed after [handleAddStudent] is the one computed before,
    every rank unchanged, followed by one row for the new student with total
    0, average 0 and the rank N + 1 for N students before. *)
Theorem added_student_ranks_last (t : string -> string) (uid docId : string)
    (st : AppState) (name : string) :
  (forall m, In m (marks st) -> Mark.studentId m <> docId) ->
  Forall (fun m => 0 <= Number (Mark.marks m)) (marks st) ->
  exists last,
    sequenceResults
      (calculateSequenceResults
         (fst (handleAddStudent t (Some uid) (Stored docId) st name)))
    = sequenceResults (calculateSequenceResults st) ++ [last]
    /\ SequenceResult.student last = name
    /\ SequenceResult.totalMarks last = 0
    /\ num_eq (SequenceResult.average last) (Fin 0)
    /\ SequenceResult.rank last = (length (students st) + 1)%nat.
Proof.
  intros Hfresh Hpos.
  cbn [handleAddStudent fst calculateSequenceResults sequenceResults].
  set (new := {| Student.id := docId; Student.name := name |}).
  set (st' := setStudents (students st ++ [new]) st).
  assert (Hrows : sequenceRows st' = sequenceRows st ++ [sequenceRow st' new]).
  { unfold sequenceRows. cbn [st' setStudents students].
    rewrite map_app. reflexivity. }
  assert (Htotal : sequenceMarksOf st' new (selectedSequence st') = 0).
  { unfold sequenceMarksOf, sumQ. apply fold_Qplus_zeros.
    intros subject _. unfold markValue, findMark.
    destruct (find _ (marks st')) as [m |] eqn:F; [| reflexivity].
    apply find_some in F as [Hm Pm].
    apply andb_prop in Pm as [Pm _]. apply andb_prop in Pm as [Pm _].
    apply String.eqb_eq in Pm. now destruct (Hfresh m Hm). }
  assert (Hsort : js_sort (fun a b => js_sub (SeqRow.average b) (SeqRow.average a))
                          (sequenceRows st')
                  = js_sort (fun a b => js_sub (SeqRow.average b)
                                               (SeqRow.average a))
                            (sequenceRows st)
                    ++ [sequenceRow st' new]).
  { rewrite Hrows. apply js_sort_keeps_last. intros y Hy.
    rewrite sequenceRows_spec in Hy. apply in_map_iff in Hy as (s & <- & _).
    rewrite sequenceRow_spec.
    cbn [specSequenceRow SeqRow.average js_sub js_gt].
    apply Qltb_ge.
    pose proof (sequenceAverageQ_nonneg st s Hpos) as Hs.
    unfold sequenceAverageQ at 1. rewrite Htotal.
    destruct (Qltb 0 (possibleOf st')).
    - assert (E : 0 / possibleOf st' * 20 == 0) by (unfold Qdiv; ring).
      rewrite E. lra.
    - lra. }
  exists (withSeqRank (length (students st)) (sequenceRow st' new)).
  split; [| split; [| split; [| split]]].
  - unfold sequenceRanked. rewrite Hsort, imap_app. f_equal.
    cbn [imap]. f_equal. f_equal.
    rewrite (Permutation_length (js_sort_perm _ _)).
    unfold sequenceRows. rewrite length_map. lia.
  - cbn [withSeqRank SequenceResult.student].
    rewrite sequenceRow_spec. reflexivity.
  - cbn [withSeqRank SequenceResult.totalMarks].
    rewrite sequenceRow_spec. exact Htotal.
  - cbn [withSeqRank SequenceResult.average].
    rewrite sequenceRow_spec. cbn [specSequenceRow SeqRow.average num_eq].
    unfold sequenceAverageQ. rewrite Htotal.
    destruct (Qltb 0 (possibleOf st')); [unfold Qdiv; ring | reflexivity].
  - reflexivity.
Qed.

Lemma added_student_ranks_last_witness :
  exists last,
    sequenceResults
      (calculateSequenceResults
         (fst (handleAddStudent (fun key => key) (Some "uid"%string)
                                (Stored "c") exampleState "C")))
    = sequenceResults (calculateSequenceResults exampleState) ++ [last]
    /\ SequenceResult.student last = "C"%string
    /\ SequenceResult.totalMarks last = 0
    /\ num_eq (SequenceResult.average last) (Fin 0)
    /\ SequenceResult.rank last = (length (students exampleState) + 1)%nat.
Proof.
  apply (added_student_ranks_last (fun key => key) "uid" "c" exampleState "C").
  - intros m Hm. cbn in Hm.
    repeat (destruct Hm as [<- | Hm]; [discriminate |]). contradiction.
  - repeat (apply List.Forall_cons; [discriminate |]). apply List.Forall_nil.
Defined.

(** ** Nothing entered *)

Lemma hasMarks_false (st : AppState) (m : Mark.t) :
  hasMarks st = false -> In m (marks st) -> Mark.marks m = MEmpty.
Proof.
  unfold hasMarks. intros H Hm.
  destruct (Mark.marks m) as [q |] eqn:E; [| reflexivity].
  assert (existsb (fun m => match Mark.marks m with
                            | MEmpty => false
                            | MNum _ => true
                            end) (marks st) = true); [| congruence].
  apply existsb_exists. exists m. now rewrite E.
Qed.

Lemma nothing_entered (st : AppState) (student : Student.t) (sequence : string) :
  hasMarks st = false -> sequenceMarksOf st student sequence = 0.
Proof.
  intros H. unfold sequenceMarksOf, sumQ. apply fold_Qplus_zeros.
  intros subject _. unfold markValue.
  destruct (findMark _ _ _ _) as [m |] eqn:F; [| reflexivity].
  apply find_some in F as [Hm _]. now rewrite (hasMarks_false st m H Hm).
Qed.

(** X23.  While [hasMarks] is false, which keeps the calculation buttons
    disabled, there is nothing to calculate: every student's sequence row
    would have total 0 and average 0, and every term row total 0 and
    average 0, for any list of sequences. *)
Theorem no_marks_all_zero (st : AppState) :
  hasMarks st = false ->
  (forall student,
      SeqRow.totalMarks (sequenceRow st student) = 0
      /\ num_eq (SeqRow.average (sequenceRow st student)) (Fin 0))
  /\ (forall sequences student,
        TermResult.totalMarks (termRow st sequences student) = 0
        /\ TermResult.average (termRow st sequences student) = Fin 0).
Proof.
  intros H. split.
  - intros student. rewrite sequenceRow_spec.
    cbn [specSequenceRow SeqRow.totalMarks SeqRow.average num_eq].
    unfold sequenceAverageQ. rewrite (nothing_entered st student _ H).
    split; [reflexivity |].
    destruct (Qltb 0 (possibleOf st)); [unfold Qdiv; ring | reflexivity].
  - intros sequences student. rewrite termRow_spec.
    unfold specTermRow, specTermAverage, specTermTotals.
    cbn [TermResult.totalMarks TermResult.average fst].
    assert (E : enteredSequences st student sequences = []).
    { unfold enteredSequences.
      induction sequences as [| sequence l IH]; [reflexivity |].
      cbn [List.filter]. unfold entered at 1.
      now rewrite (nothing_entered st student sequence H). }
    rewrite E. split; reflexivity.
Qed.

Lemma no_marks_all_zero_witness :
  (forall student,
      SeqRow.totalMarks
        (sequenceRow (initialState exampleStudents exampleSubjects []
                                   "firstSequence") student) = 0
      /\ num_eq (SeqRow.average
                   (sequenceRow (initialState exampleStudents exampleSubjects []
                                              "firstSequence") student))
                (Fin 0))
  /\ (forall sequences student,
        TermResult.totalMarks
          (termRow (initialState exampleStudents exampleSubjects []
                                 "firstSequence") sequences student) = 0
        /\ TermResult.average
             (termRow (initialState exampleStudents exampleSubjects []
                                    "firstSequence") sequences student)
           = Fin 0).
Proof.
  apply (no_marks_all_zero
           (initialState exampleStudents exampleSubjects [] "firstSequence")).
  reflexivity.
Defined.
